(** * Trades of the history database

    A shallow embedding of [services/horizon/internal/db2/history/trade.go]:
    the canonical base/counter orientation used when a trade is inserted, the
    query builder over [history_trades] (ledger filter, cursor paging, reverse
    projection) and the consistency check between [history_trades] and
    [exp_history_trades].

    Integers of the Go code are kept as [Z]; where the code converts or adds
    at a fixed width the wrap-around is written out. *)

From Stdlib Require Import ZArith Lia Bool List Ascii.
From stdpp Require Import base decidable option list strings pretty.

Local Open Scope Z_scope.

(** ** Machine integers *)

(** [math.MaxInt32]. *)
Definition MaxInt32 : Z := 2147483647.

(** Addition on [int32] wraps around. *)
Definition wrap_int32 (z : Z) : Z := (z + 2147483648) mod 4294967296 - 2147483648.

(** The conversion [uint64(x)] of an [int64]. *)
Definition uint64 (z : Z) : Z := z mod 18446744073709551616.

(** ** Errors *)

(** A Go [error] value: one produced by a collaborator, or one wrapped with
    context by [errors.Wrap(err, message)]. *)
Inductive error : Type :=
| Failure (what : string)
| Wrap (cause : error) (message : string).

#[global] Instance error_eq_dec : EqDecision error.
Proof. solve_decision. Defined.

(** ** Values of other packages *)

Module time.

(** [time.Time], as far as this file looks at it: the seconds since the epoch
    that [Unix()] returns, and the rest of the representation (nanoseconds,
    location), which [reflect.DeepEqual] also compares. *)
Record Time : Type := { sec : Z; nsec : Z; loc : string }.

Definition Unix (t : Time) : Z := sec t.

#[global] Instance Time_eq_dec : EqDecision Time.
Proof. solve_decision. Defined.

End time.

Module null.

(** [null.Int]: a nullable 64-bit integer column ([HasPrice] reads [Valid]). *)
Record Int : Type := { Int64 : Z; Valid : bool }.

#[global] Instance Int_eq_dec : EqDecision Int.
Proof. solve_decision. Defined.

End null.

Module xdr.

(** An account is named by its address. *)
Definition AccountId : Type := string.

(** An asset is a (type, code, issuer) triple. *)
Record Asset : Type := { AssetType : string; AssetCode : string; AssetIssuer : string }.

Record Price : Type := { N : Z; D : Z }.

(** Modelled from the spec: [xdr.Price.Invert] is declared outside trade.go;
    to invert a price is to "swap numerator/denominator". *)
Definition Invert (p : Price) : Price := {| N := D p; D := N p |}.

(** The fields of [xdr.ClaimOfferAtom] that [InsertTrade] reads. *)
Record ClaimOfferAtom : Type := {
  SellerId : AccountId;
  OfferId : Z;
  AssetSold : Asset;
  AmountSold : Z;
  AssetBought : Asset;
  AmountBought : Z
}.

(** The field of [xdr.OfferEntry] that [InsertTrade] reads. *)
Record OfferEntry : Type := { EntryOfferId : Z }.

End xdr.

Module toid.

Record ID : Type := { LedgerSequence : Z; TransactionOrder : Z; OperationOrder : Z }.

End toid.

Module db2.

Record PageQuery : Type := { Cursor : string; Order : string; Limit : Z }.

(** Modelled from the spec: [db2.DefaultPairSep] is declared outside trade.go;
    the cursor wire format is the string "<int64>-<int64>". *)
Definition DefaultPairSep : string := "-".

End db2.

(** The two offer-id namespaces of [EncodeOfferId]. *)
Inductive OfferIDType : Type := CoreOfferIDType | TOIDType.

(** ** Rows *)

(** A row of [history_trades htrd] joined with the accounts and assets tables
    ([joinTradeAccounts], [joinTradeAssets]): the columns that the select
    lists and the filters of this file name. *)
Record JoinedRow : Type := {
  htrd_history_operation_id : Z;
  htrd_order : Z;
  htrd_ledger_closed_at : time.Time;
  htrd_offer_id : Z;
  htrd_base_offer_id : Z;
  htrd_base_account_id : Z;
  htrd_base_asset_id : Z;
  htrd_base_amount : Z;
  htrd_counter_offer_id : Z;
  htrd_counter_account_id : Z;
  htrd_counter_asset_id : Z;
  htrd_counter_amount : Z;
  htrd_base_is_seller : bool;
  htrd_price_n : null.Int;
  htrd_price_d : null.Int;
  base_accounts_address : string;
  counter_accounts_address : string;
  base_assets_asset_type : string;
  base_assets_asset_code : string;
  base_assets_asset_issuer : string;
  counter_assets_asset_type : string;
  counter_assets_asset_code : string;
  counter_assets_asset_issuer : string
}.

(** Modelled from the spec: the struct [Trade] is declared outside trade.go;
    its fields are those of the data model, one per column of
    [selectTradeFields], with nullable prices. *)
Record Trade : Type := {
  HistoryOperationID : Z;
  Order : Z;
  LedgerCloseTime : time.Time;
  OfferID : Z;
  BaseOfferID : Z;
  BaseAccount : string;
  BaseAssetType : string;
  BaseAssetCode : string;
  BaseAssetIssuer : string;
  BaseAmount : Z;
  CounterOfferID : Z;
  CounterAccount : string;
  CounterAssetType : string;
  CounterAssetCode : string;
  CounterAssetIssuer : string;
  CounterAmount : Z;
  BaseIsSeller : bool;
  PriceN : null.Int;
  PriceD : null.Int
}.

#[global] Instance Trade_eq_dec : EqDecision Trade.
Proof. solve_decision. Defined.

(** [HasPrice] returns true if the trade has non-null price data. *)
Definition HasPrice (r : Trade) : bool := null.Valid (PriceN r) && null.Valid (PriceD r).

(** [PagingToken] returns a cursor for this trade: the operation id and the
    order in decimal ("%d"), a dash between them. *)
Definition PagingToken (r : Trade) : string :=
  pretty (HistoryOperationID r) +:+ "-" +:+ pretty (Order r).

(** [reflect.DeepEqual] on two [Trade] values: every field is a number, a
    string, a boolean or a struct of such, so it is equality of the fields. *)
Definition DeepEqual (a b : Trade) : bool := bool_decide (a = b).

(** ** The query builder (package [sq]) *)

Module sq.

(** The columns of [htrd] that the filters compare. *)
Inductive column : Type :=
| history_operation_id
| order
| base_offer_id
| counter_offer_id
| base_account_id
| counter_account_id
| base_asset_id
| counter_asset_id.

Inductive relop : Type := GE | GT | LE | LT | EQ.

(** A condition of a WHERE clause with its [?] arguments filled in. *)
Inductive cond : Type :=
| Cmp (c : column) (o : relop) (arg : Z)
| And (l r : cond)
| Or (l r : cond).

Definition column_value (c : column) (j : JoinedRow) : Z :=
  match c with
  | history_operation_id => htrd_history_operation_id j
  | order => htrd_order j
  | base_offer_id => htrd_base_offer_id j
  | counter_offer_id => htrd_counter_offer_id j
  | base_account_id => htrd_base_account_id j
  | counter_account_id => htrd_counter_account_id j
  | base_asset_id => htrd_base_asset_id j
  | counter_asset_id => htrd_counter_asset_id j
  end.

Definition compare (o : relop) (x y : Z) : bool :=
  match o with
  | GE => y <=? x
  | GT => y <? x
  | LE => x <=? y
  | LT => x <? y
  | EQ => x =? y
  end.

(** Whether a row satisfies a condition. *)
Fixpoint holds (c : cond) (j : JoinedRow) : bool :=
  match c with
  | Cmp col o arg => compare o (column_value col j) arg
  | And l r => holds l j && holds r j
  | Or l r => holds l j || holds r j
  end.

(** A SELECT statement under construction.  The select list is kept by what
    it computes: the [Trade] read from a joined row. *)
Record SelectBuilder : Type := {
  sel_columns : JoinedRow -> Trade;
  sel_from : string;
  sel_joins : list string;
  sel_where : list cond;
  sel_order_by : list string;
  sel_limit : option Z
}.

Definition Select (columns : JoinedRow -> Trade) : SelectBuilder :=
  {| sel_columns := columns; sel_from := EmptyString; sel_joins := [];
     sel_where := []; sel_order_by := []; sel_limit := None |}.

Definition From (b : SelectBuilder) (table : string) : SelectBuilder :=
  {| sel_columns := sel_columns b; sel_from := table; sel_joins := sel_joins b;
     sel_where := sel_where b; sel_order_by := sel_order_by b; sel_limit := sel_limit b |}.

Definition Join (b : SelectBuilder) (join : string) : SelectBuilder :=
  {| sel_columns := sel_columns b; sel_from := sel_from b; sel_joins := sel_joins b ++ [join];
     sel_where := sel_where b; sel_order_by := sel_order_by b; sel_limit := sel_limit b |}.

Definition Where (b : SelectBuilder) (c : cond) : SelectBuilder :=
  {| sel_columns := sel_columns b; sel_from := sel_from b; sel_joins := sel_joins b;
     sel_where := sel_where b ++ [c]; sel_order_by := sel_order_by b; sel_limit := sel_limit b |}.

Definition OrderBy (b : SelectBuilder) (clause : string) : SelectBuilder :=
  {| sel_columns := sel_columns b; sel_from := sel_from b; sel_joins := sel_joins b;
     sel_where := sel_where b; sel_order_by := sel_order_by b ++ [clause]; sel_limit := sel_limit b |}.

Definition Limit (b : SelectBuilder) (n : Z) : SelectBuilder :=
  {| sel_columns := sel_columns b; sel_from := sel_from b; sel_joins := sel_joins b;
     sel_where := sel_where b; sel_order_by := sel_order_by b; sel_limit := Some n |}.

(** The WHERE parts of a statement are joined by AND. *)
Definition matches (b : SelectBuilder) (j : JoinedRow) : bool :=
  forallb (fun c => holds c j) (sel_where b).

(** A value bound to a column of an INSERT. *)
Inductive value : Type :=
| VInt (z : Z)
| VBool (b : bool)
| VTime (t : time.Time).

(** An INSERT statement under construction: the column names, and the rows of
    values, each given in the order of the columns. *)
Record InsertBuilder : Type := {
  ins_into : string;
  ins_columns : list string;
  ins_values : list (list value)
}.

Definition Insert (table : string) : InsertBuilder :=
  {| ins_into := table; ins_columns := []; ins_values := [] |}.

Definition Columns (b : InsertBuilder) (columns : list string) : InsertBuilder :=
  {| ins_into := ins_into b; ins_columns := ins_columns b ++ columns; ins_values := ins_values b |}.

Definition Values (b : InsertBuilder) (row : list value) : InsertBuilder :=
  {| ins_into := ins_into b; ins_columns := ins_columns b; ins_values := ins_values b ++ [row] |}.

(** The position of a column name in the column list. *)
Fixpoint position (name : string) (columns : list string) : option nat :=
  match columns with
  | [] => None
  | c :: rest => if String.eqb c name then Some O else S <$> position name rest
  end.

(** The value that the single row of an INSERT stores in the named column. *)
Definition stored (b : InsertBuilder) (name : string) : option value :=
  match ins_values b with
  | [row] => i ← position name (ins_columns b); row !! i
  | _ => None
  end.

End sq.

(** A statement handed to the database. *)
Inductive Statement : Type :=
| Query (b : sq.SelectBuilder)
| Exec (b : sq.InsertBuilder).

(** ** Collaborators

    What trade.go calls and does not define: the account and asset lookups of
    the session, the offer-id encoding, the cursor parser of [db2], [toid],
    the time conversion, and the database that runs the statements. *)
Class Backend : Type := {
  DB : Type;
  (** [q.parent.AccountByAddress(&account, aid)]: the account's id. *)
  AccountByAddress : string -> DB -> error + Z;
  (** [q.GetCreateAccountID], [q.GetCreateAssetID]: get or create. *)
  GetCreateAccountID : xdr.AccountId -> DB -> (error + Z) * DB;
  GetCreateAssetID : xdr.Asset -> DB -> (error + Z) * DB;
  (** [EncodeOfferId(id uint64, typ OfferIDType) int64]. *)
  EncodeOfferId : Z -> OfferIDType -> Z;
  (** [page.CursorInt64Pair(sep)]. *)
  CursorInt64Pair : db2.PageQuery -> string -> error + (Z * Z);
  (** [toid.ID.ToInt64()]. *)
  ToInt64 : toid.ID -> Z;
  (** [supportTime.Millis.ToTime()]. *)
  ToTime : Z -> time.Time;
  (** The database running a SELECT and an INSERT. *)
  run_select : sq.SelectBuilder -> DB -> error + list Trade;
  run_insert : sq.InsertBuilder -> DB -> option error * DB;
  (** What [q.parent.Select(dest, sql)] leaves in [dest] when it fails. *)
  dest_on_failure : sq.SelectBuilder -> DB -> list Trade -> list Trade
}.

(** ** The session and the trade queries *)

Section History.

Context `{Backend}.

(** The session [Q]: the database behind it and, in order, the statements
    handed to it so far. *)
Record Q : Type := { database : DB; executed : list Statement }.

(** [q.parent.Select(dest, sql)]: runs the statement; the rows read, or the error. *)
Definition Q_Select (b : sq.SelectBuilder) (s : Q) : (error + list Trade) * Q :=
  (run_select b (database s),
   {| database := database s; executed := executed s ++ [Query b] |}).

(** [q.Exec(sql)]: runs the statement; the error, if any. *)
Definition Q_Exec (b : sq.InsertBuilder) (s : Q) : option error * Q :=
  let '(err, d) := run_insert b (database s) in
  (err, {| database := d; executed := executed s ++ [Exec b] |}).

(** [TradesQ]: the query under construction and the error met while building
    it.  Its [parent] is the session, which the operations below take as an
    argument. *)
Record TradesQ : Type := { Err : option error; sql : sq.SelectBuilder }.

Definition joinTradeAccounts (selectBuilder : sq.SelectBuilder) (historyAccountsTable : string)
  : sq.SelectBuilder :=
  sq.Join
    (sq.Join selectBuilder
       (historyAccountsTable +:+ " base_accounts ON base_account_id = base_accounts.id"))
    (historyAccountsTable +:+ " counter_accounts ON counter_account_id = counter_accounts.id").

Definition joinTradeAssets (selectBuilder : sq.SelectBuilder) (historyAssetsTable : string)
  : sq.SelectBuilder :=
  sq.Join
    (sq.Join selectBuilder
       (historyAssetsTable +:+ " base_assets ON base_asset_id = base_assets.id"))
    (historyAssetsTable +:+ " counter_assets ON counter_asset_id = counter_assets.id").

(** The select list of [selectTradeFields], output column by output column. *)
Definition selectTradeFields (j : JoinedRow) : Trade :=
  {| HistoryOperationID := htrd_history_operation_id j;
     Order := htrd_order j;
     LedgerCloseTime := htrd_ledger_closed_at j;
     OfferID := htrd_offer_id j;
     BaseOfferID := htrd_base_offer_id j;
     BaseAccount := base_accounts_address j;
     BaseAssetType := base_assets_asset_type j;
     BaseAssetCode := base_assets_asset_code j;
     BaseAssetIssuer := base_assets_asset_issuer j;
     BaseAmount := htrd_base_amount j;
     CounterOfferID := htrd_counter_offer_id j;
     CounterAccount := counter_accounts_address j;
     CounterAssetType := counter_assets_asset_type j;
     CounterAssetCode := counter_assets_asset_code j;
     CounterAssetIssuer := counter_assets_asset_issuer j;
     CounterAmount := htrd_counter_amount j;
     BaseIsSeller := htrd_base_is_seller j;
     PriceN := htrd_price_n j;
     PriceD := htrd_price_d j |}.

(** The select list of [selectReverseTradeFields]: each "x as y" reads the
    source column x into the output column y. *)
Definition selectReverseTradeFields (j : JoinedRow) : Trade :=
  {| HistoryOperationID := htrd_history_operation_id j;
     Order := htrd_order j;
     LedgerCloseTime := htrd_ledger_closed_at j;
     OfferID := htrd_offer_id j;
     BaseOfferID := htrd_counter_offer_id j;
     BaseAccount := counter_accounts_address j;
     BaseAssetType := counter_assets_asset_type j;
     BaseAssetCode := counter_assets_asset_code j;
     BaseAssetIssuer := counter_assets_asset_issuer j;
     BaseAmount := htrd_counter_amount j;
     CounterOfferID := htrd_base_offer_id j;
     CounterAccount := base_accounts_address j;
     CounterAssetType := base_assets_asset_type j;
     CounterAssetCode := base_assets_asset_code j;
     CounterAssetIssuer := base_assets_asset_issuer j;
     CounterAmount := htrd_base_amount j;
     BaseIsSeller := negb (htrd_base_is_seller j);
     PriceN := htrd_price_d j;
     PriceD := htrd_price_n j |}.

(** The columns of [tradesInsert]; the quoted identifier of the order column
    is written without its quotes. *)
Definition tradesInsert : sq.InsertBuilder :=
  sq.Columns (sq.Insert "history_trades")
    [ "history_operation_id"; "order"; "ledger_closed_at"; "offer_id";
      "base_offer_id"; "base_account_id"; "base_asset_id"; "base_amount";
      "counter_offer_id"; "counter_account_id"; "counter_asset_id"; "counter_amount";
      "base_is_seller"; "price_n"; "price_d" ].

(** [Trades] filters rows from the [history_trades] table. *)
Definition Trades : TradesQ :=
  {| Err := None;
     sql := joinTradeAssets
              (joinTradeAccounts (sq.From (sq.Select selectTradeFields) "history_trades htrd")
                 "history_accounts")
              "history_assets" |}.

Definition expTrades : TradesQ :=
  {| Err := None;
     sql := joinTradeAssets
              (joinTradeAccounts (sq.From (sq.Select selectTradeFields) "exp_history_trades htrd")
                 "exp_history_accounts")
              "exp_history_assets" |}.

(** [ReverseTrades]: the same rows with base and counter reversed. *)
Definition ReverseTrades : TradesQ :=
  {| Err := None;
     sql := joinTradeAssets
              (joinTradeAccounts (sq.From (sq.Select selectReverseTradeFields) "history_trades htrd")
                 "history_accounts")
              "history_assets" |}.

Definition getCanonicalAssetOrder (assetId1 assetId2 : Z) : bool * Z * Z :=
  if assetId1 <? assetId2 then (true, assetId1, assetId2)
  else (false, assetId2, assetId1).

(** Filter by asset pair. *)
Definition forAssetPair (q : TradesQ) (baseAssetId counterAssetId : Z) : TradesQ :=
  {| Err := Err q;
     sql := sq.Where (sql q)
              (sq.And (sq.Cmp sq.base_asset_id sq.EQ baseAssetId)
                      (sq.Cmp sq.counter_asset_id sq.EQ counterAssetId)) |}.

Definition TradesForAssetPair (baseAssetId counterAssetId : Z) : TradesQ :=
  let '(orderPreserved, baseAssetId, counterAssetId) :=
    getCanonicalAssetOrder baseAssetId counterAssetId in
  let trades := if orderPreserved then Trades else ReverseTrades in
  forAssetPair trades baseAssetId counterAssetId.

(** [ForOffer] filters the query results by the offer id. *)
Definition ForOffer (q : TradesQ) (id : Z) : TradesQ :=
  {| Err := Err q;
     sql := sq.Where (sql q)
              (sq.Or (sq.Cmp sq.base_offer_id sq.EQ id) (sq.Cmp sq.counter_offer_id sq.EQ id)) |}.

(** [ForLedger] adds a filter which only includes trades within the given
    ledger sequence. *)
Definition ForLedger (q : TradesQ) (sequence : Z) (order : string) : TradesQ :=
  let from := ToInt64 {| toid.LedgerSequence := sequence;
                         toid.TransactionOrder := 0; toid.OperationOrder := 0 |} in
  let to := ToInt64 {| toid.LedgerSequence := wrap_int32 (sequence + 1);
                       toid.TransactionOrder := 0; toid.OperationOrder := 0 |} in
  {| Err := Err q;
     sql := sq.OrderBy
              (sq.Where (sql q)
                 (sq.And (sq.Cmp sq.history_operation_id sq.GE from)
                         (sq.Cmp sq.history_operation_id sq.LE to)))
              ("htrd.history_operation_id " +:+ order +:+ ", htrd.order " +:+ order) |}.

(** [ForAccount] filters trades by account id. *)
Definition ForAccount (q : TradesQ) (aid : string) (s : Q) : TradesQ :=
  match AccountByAddress aid (database s) with
  | inl err => {| Err := Some err; sql := sql q |}
  | inr account_ID =>
      {| Err := None;
         sql := sq.Where (sql q)
                  (sq.Or (sq.Cmp sq.base_account_id sq.EQ account_ID)
                         (sq.Cmp sq.counter_account_id sq.EQ account_ID)) |}
  end.

(** The cursor condition of an ascending page. *)
Definition pageAscending (op idx : Z) : sq.cond :=
  sq.And (sq.Cmp sq.history_operation_id sq.GE op)
         (sq.Or (sq.Cmp sq.history_operation_id sq.GT op)
                (sq.And (sq.Cmp sq.history_operation_id sq.EQ op)
                        (sq.Cmp sq.order sq.GT idx))).

(** The cursor condition of a descending page. *)
Definition pageDescending (op idx : Z) : sq.cond :=
  sq.And (sq.Cmp sq.history_operation_id sq.LE op)
         (sq.Or (sq.Cmp sq.history_operation_id sq.LT op)
                (sq.And (sq.Cmp sq.history_operation_id sq.EQ op)
                        (sq.Cmp sq.order sq.LT idx))).

(** [Page] specifies the paging constraints for the query being built by [q]. *)
Definition Page (q : TradesQ) (page : db2.PageQuery) : TradesQ :=
  match Err q with
  | Some _ => q
  | None =>
      match CursorInt64Pair page db2.DefaultPairSep with
      | inl err => {| Err := Some err; sql := sql q |}
      | inr (op, idx) =>
          (* constrain the second portion of the cursor pair to 32-bits *)
          let idx := if MaxInt32 <? idx then MaxInt32 else idx in
          let sql1 :=
            if String.eqb (db2.Order page) "asc" then
              sq.OrderBy (sq.Where (sql q) (pageAscending op idx))
                "htrd.history_operation_id asc, htrd.order asc"
            else if String.eqb (db2.Order page) "desc" then
              sq.OrderBy (sq.Where (sql q) (pageDescending op idx))
                "htrd.history_operation_id desc, htrd.order desc"
            else sql q in
          {| Err := Err q; sql := sq.Limit sql1 (db2.Limit page) |}
      end
  end.

(** [Select] loads the results of the query specified by [q] into [dest]:
    the error returned, the builder and [dest] afterwards, and the session.
    [dest] is handed to [q.parent.Select], which decides what it holds when
    the statement fails. *)
Definition Select (q : TradesQ) (dest : list Trade) (s : Q)
  : option error * TradesQ * list Trade * Q :=
  match Err q with
  | Some err => (Some err, q, dest, s)
  | None =>
      match Q_Select (sql q) s with
      | (inl err, s') =>
          (Some err, {| Err := Some err; sql := sql q |},
           dest_on_failure (sql q) (database s) dest, s')
      | (inr rows, s') => (None, {| Err := None; sql := sql q |}, rows, s')
      end
  end.

(** [q.GetCreateAccountID] and [q.GetCreateAssetID] on the session. *)
Definition Q_GetCreateAccountID (id : xdr.AccountId) (s : Q) : (error + Z) * Q :=
  let '(r, d) := GetCreateAccountID id (database s) in
  (r, {| database := d; executed := executed s |}).

Definition Q_GetCreateAssetID (asset : xdr.Asset) (s : Q) : (error + Z) * Q :=
  let '(r, d) := GetCreateAssetID asset (database s) in
  (r, {| database := d; executed := executed s |}).

(** [InsertTrade] records a trade into the [history_trades] table. *)
Definition InsertTrade (opid order : Z) (buyer : xdr.AccountId) (buyOfferExists : bool)
    (buyOffer : xdr.OfferEntry) (trade : xdr.ClaimOfferAtom) (sellPrice : xdr.Price)
    (ledgerClosedAt : Z) (s : Q) : option error * Q :=
  match Q_GetCreateAccountID (xdr.SellerId trade) s with
  | (inl err, s) => (Some (Wrap err "failed to load seller account id"), s)
  | (inr sellerAccountId, s) =>
  match Q_GetCreateAccountID buyer s with
  | (inl err, s) => (Some (Wrap err "failed to load buyer account id"), s)
  | (inr buyerAccountId, s) =>
  match Q_GetCreateAssetID (xdr.AssetSold trade) s with
  | (inl err, s) => (Some (Wrap err "failed to get sold asset id"), s)
  | (inr soldAssetId, s) =>
  match Q_GetCreateAssetID (xdr.AssetBought trade) s with
  | (inl err, s) => (Some (Wrap err "failed to get bought asset id"), s)
  | (inr boughtAssetId, s) =>
      let sellOfferId := EncodeOfferId (uint64 (xdr.OfferId trade)) CoreOfferIDType in
      (* if the buy offer exists, encode the stellar core generated id as the
         offer id; if not, encode the toid as the offer id *)
      let buyOfferId :=
        if buyOfferExists
        then EncodeOfferId (uint64 (xdr.EntryOfferId buyOffer)) CoreOfferIDType
        else EncodeOfferId (uint64 opid) TOIDType in
      let '(orderPreserved, baseAssetId, counterAssetId) :=
        getCanonicalAssetOrder soldAssetId boughtAssetId in
      let '(baseAccountId, baseAmount, counterAccountId, counterAmount,
            baseOfferId, counterOfferId, sellPrice) :=
        if orderPreserved
        then (sellerAccountId, xdr.AmountSold trade, buyerAccountId, xdr.AmountBought trade,
              sellOfferId, buyOfferId, sellPrice)
        else (buyerAccountId, xdr.AmountBought trade, sellerAccountId, xdr.AmountSold trade,
              buyOfferId, sellOfferId, xdr.Invert sellPrice) in
      let sql :=
        sq.Values tradesInsert
          [ sq.VInt opid;
            sq.VInt order;
            sq.VTime (ToTime ledgerClosedAt);
            sq.VInt (xdr.OfferId trade);
            sq.VInt baseOfferId;
            sq.VInt baseAccountId;
            sq.VInt baseAssetId;
            sq.VInt baseAmount;
            sq.VInt counterOfferId;
            sq.VInt counterAccountId;
            sq.VInt counterAssetId;
            sq.VInt counterAmount;
            sq.VBool orderPreserved;
            sq.VInt (xdr.N sellPrice);
            sq.VInt (xdr.D sellPrice) ] in
      match Q_Exec sql s with
      | (Some err, s) => (Some (Wrap err "failed to exec sql"), s)
      | (None, s) => (None, s)
      end
  end end end end.

(** The assignment [expTrade.LedgerCloseTime = trade.LedgerCloseTime]. *)
Definition setLedgerCloseTime (expTrade : Trade) (closedAt : time.Time) : Trade :=
  {| HistoryOperationID := HistoryOperationID expTrade;
     Order := Order expTrade;
     LedgerCloseTime := closedAt;
     OfferID := OfferID expTrade;
     BaseOfferID := BaseOfferID expTrade;
     BaseAccount := BaseAccount expTrade;
     BaseAssetType := BaseAssetType expTrade;
     BaseAssetCode := BaseAssetCode expTrade;
     BaseAssetIssuer := BaseAssetIssuer expTrade;
     BaseAmount := BaseAmount expTrade;
     CounterOfferID := CounterOfferID expTrade;
     CounterAccount := CounterAccount expTrade;
     CounterAssetType := CounterAssetType expTrade;
     CounterAssetCode := CounterAssetCode expTrade;
     CounterAssetIssuer := CounterAssetIssuer expTrade;
     CounterAmount := CounterAmount expTrade;
     BaseIsSeller := BaseIsSeller expTrade;
     PriceN := PriceN expTrade;
     PriceD := PriceD expTrade |}.

(** The seven exchanges of base and counter fields that [CheckExpTrades]
    makes on [expTrade], followed by
    [expTrade.BaseIsSeller = trade.BaseIsSeller]. *)
Definition swapBaseCounter (expTrade : Trade) (trade_BaseIsSeller : bool) : Trade :=
  {| HistoryOperationID := HistoryOperationID expTrade;
     Order := Order expTrade;
     LedgerCloseTime := LedgerCloseTime expTrade;
     OfferID := OfferID expTrade;
     BaseOfferID := CounterOfferID expTrade;
     BaseAccount := CounterAccount expTrade;
     BaseAssetType := CounterAssetType expTrade;
     BaseAssetCode := CounterAssetCode expTrade;
     BaseAssetIssuer := CounterAssetIssuer expTrade;
     BaseAmount := CounterAmount expTrade;
     CounterOfferID := BaseOfferID expTrade;
     CounterAccount := BaseAccount expTrade;
     CounterAssetType := BaseAssetType expTrade;
     CounterAssetCode := BaseAssetCode expTrade;
     CounterAssetIssuer := BaseAssetIssuer expTrade;
     CounterAmount := BaseAmount expTrade;
     BaseIsSeller := trade_BaseIsSeller;
     PriceN := PriceD expTrade;
     PriceD := PriceN expTrade |}.

(** The candidate row as it stands when it is compared with [trade]: its
    close time overwritten and, when the two rows disagree on
    [BaseIsSeller], its sides exchanged. *)
Definition alignExpTrade (trade expTrade : Trade) : Trade :=
  let expTrade := setLedgerCloseTime expTrade (LedgerCloseTime trade) in
  (* a given set of assets may not have the same ordering in history_assets
     and exp_history_assets *)
  if negb (Bool.eqb (BaseIsSeller expTrade) (BaseIsSeller trade))
  then swapBaseCounter expTrade (BaseIsSeller trade)
  else expTrade.

(** The loop [for i, trade := range trades] from index [i] on, [trades] being
    the rows not yet visited: [Some false] for [return false, nil], [Some true]
    when the loop runs to its end, [None] when [expTrades[i]] is out of range. *)
Fixpoint compareTrades (i : nat) (trades expTrades : list Trade) : option bool :=
  match trades with
  | [] => Some true
  | trade :: rest =>
      match expTrades !! i with
      | None => None
      | Some expTrade =>
          (* compare LedgerCloseTime separately *)
          let expClosedAt := LedgerCloseTime expTrade in
          if negb (time.Unix expClosedAt =? time.Unix (LedgerCloseTime trade))
          then Some false
          else if negb (DeepEqual (alignExpTrade trade expTrade) trade)
          then Some false
          else compareTrades (S i) rest expTrades
      end
  end.

(** [CheckExpTrades] checks that the trades in [exp_history_trades] for the
    given ledger match the same transactions in [history_trades].  The result
    is [None] when the run ends in a panic. *)
Definition CheckExpTrades (seq : Z) (s : Q) : option (bool * option error) * Q :=
  match Select (ForLedger Trades seq "asc") [] s with
  | (Some err, _, _, s) => (Some (false, Some err), s)
  | (None, _, trades, s) =>
  match Select (ForLedger expTrades seq "asc") [] s with
  | (Some err, _, _, s) => (Some (false, Some err), s)
  | (None, _, expTrades, s) =>
      (* We only proceed with the comparison if we have trade data in both
         the legacy ingestion system and the experimental ingestion system. *)
      if (length trades =? 0)%nat || (length expTrades =? 0)%nat
      then (Some (true, None), s)
      else if negb (length trades =? length expTrades)%nat
      then (Some (false, None), s)
      else
        match compareTrades 0 trades expTrades with
        | Some ok => (Some (ok, None), s)
        | None => (None, s)
        end
  end end.

End History.

(** ** A backend to run the model on

    One instance of the collaborators, small enough to evaluate: two tables
    of joined rows, accounts and assets numbered by association lists, the
    ledger sequence in the high 32 bits of an operation id, and cursors
    written as two runs of decimal digits around the separator. *)

Module Sample.

Record Tables : Type := {
  history_accounts : list (string * Z);
  history_assets : list (xdr.Asset * Z);
  history_trades : list JoinedRow;
  exp_history_trades : list JoinedRow
}.

#[global] Instance Asset_eq_dec : EqDecision xdr.Asset.
Proof. solve_decision. Defined.

Definition find {K : Type} `{EqDecision K} (k : K) (table : list (K * Z)) : option Z :=
  snd <$> List.find (fun entry => bool_decide (fst entry = k)) table.

Definition next_id {K : Type} (table : list (K * Z)) : Z :=
  1 + fold_right (fun entry m => Z.max (snd entry) m) 0 table.

Definition accountByAddress (aid : string) (d : Tables) : error + Z :=
  match find aid (history_accounts d) with
  | Some id => inr id
  | None => inl (Failure "sql: no rows in result set")
  end.

Definition getCreateAccountID (aid : xdr.AccountId) (d : Tables) : (error + Z) * Tables :=
  match find aid (history_accounts d) with
  | Some id => (inr id, d)
  | None =>
      let id := next_id (history_accounts d) in
      (inr id, {| history_accounts := history_accounts d ++ [(aid, id)];
                  history_assets := history_assets d;
                  history_trades := history_trades d;
                  exp_history_trades := exp_history_trades d |})
  end.

Definition getCreateAssetID (asset : xdr.Asset) (d : Tables) : (error + Z) * Tables :=
  match find asset (history_assets d) with
  | Some id => (inr id, d)
  | None =>
      let id := next_id (history_assets d) in
      (inr id, {| history_accounts := history_accounts d;
                  history_assets := history_assets d ++ [(asset, id)];
                  history_trades := history_trades d;
                  exp_history_trades := exp_history_trades d |})
  end.

(** Offer ids of the two namespaces kept apart by bit 62. *)
Definition encodeOfferId (id : Z) (typ : OfferIDType) : Z :=
  match typ with
  | CoreOfferIDType => id
  | TOIDType => Z.lor id 4611686018427387904
  end.

Definition digit (a : Ascii.ascii) : option Z :=
  let n := Z.of_nat (Ascii.nat_of_ascii a) in
  if (48 <=? n) && (n <=? 57) then Some (n - 48) else None.

Fixpoint digits (s : string) (acc : Z) : option Z :=
  match s with
  | EmptyString => Some acc
  | String a rest => d ← digit a; digits rest (10 * acc + d)
  end.

(** A non-empty run of decimal digits that fits an [int64]. *)
Definition parseInt (s : string) : error + Z :=
  match s with
  | EmptyString => inl (Failure "invalid cursor")
  | _ =>
      match digits s 0 with
      | Some z => if z <=? 9223372036854775807 then inr z else inl (Failure "invalid cursor")
      | None => inl (Failure "invalid cursor")
      end
  end.

(** An empty cursor starts at the first row of the direction; otherwise the
    cursor is split at the first separator, and a cursor with no separator
    stands for the end of its operation. *)
Definition cursorInt64Pair (page : db2.PageQuery) (sep : string) : error + (Z * Z) :=
  match db2.Cursor page with
  | EmptyString =>
      if String.eqb (db2.Order page) "desc"
      then inr (9223372036854775807, 9223372036854775807)
      else inr (0, 0)
  | cursor =>
      match String.index 0 sep cursor with
      | None =>
          match parseInt cursor with
          | inr l => inr (l, 9223372036854775807)
          | inl err => inl err
          end
      | Some k =>
          match parseInt (String.substring 0 k cursor),
                parseInt (String.substring (k + String.length sep)
                            (String.length cursor - (k + String.length sep)) cursor) with
          | inr l, inr r => inr (l, r)
          | _, _ => inl (Failure "invalid cursor")
          end
      end
  end.

Definition toInt64 (id : toid.ID) : Z :=
  Z.lor (Z.shiftl (toid.LedgerSequence id) 32)
        (Z.lor (Z.shiftl (toid.TransactionOrder id) 12) (toid.OperationOrder id)).

Definition toTime (millis : Z) : time.Time :=
  {| time.sec := millis / 1000; time.nsec := (millis mod 1000) * 1000000; time.loc := "UTC" |}.

(** A SELECT reads the table it names, keeps the rows that match and
    projects them; the tables are kept in ascending order. *)
Definition runSelect (b : sq.SelectBuilder) (d : Tables) : error + list Trade :=
  let table :=
    if String.eqb (sq.sel_from b) "exp_history_trades htrd"
    then exp_history_trades d else history_trades d in
  inr (sq.sel_columns b <$> List.filter (sq.matches b) table).

(** An INSERT is accepted. *)
Definition runInsert (b : sq.InsertBuilder) (d : Tables) : option error * Tables := (None, d).

Definition backend : Backend := {|
  DB := Tables;
  AccountByAddress := accountByAddress;
  GetCreateAccountID := getCreateAccountID;
  GetCreateAssetID := getCreateAssetID;
  EncodeOfferId := encodeOfferId;
  CursorInt64Pair := cursorInt64Pair;
  ToInt64 := toInt64;
  ToTime := toTime;
  run_select := runSelect;
  run_insert := runInsert;
  dest_on_failure := fun _ _ dest => dest
|}.

Definition assetX : xdr.Asset :=
  {| xdr.AssetType := "credit_alphanum4"; xdr.AssetCode := "X"; xdr.AssetIssuer := "GISSUER" |}.

Definition assetY : xdr.Asset :=
  {| xdr.AssetType := "credit_alphanum4"; xdr.AssetCode := "Y"; xdr.AssetIssuer := "GISSUER" |}.

(** Selling 50 of X for 20 of Y. *)
Definition claim : xdr.ClaimOfferAtom :=
  {| xdr.SellerId := "GSELLER"; xdr.OfferId := 11;
     xdr.AssetSold := assetX; xdr.AmountSold := 50;
     xdr.AssetBought := assetY; xdr.AmountBought := 20 |}.

Definition session (assets : list (xdr.Asset * Z)) (trades exp : list JoinedRow) : @Q backend :=
  @Build_Q backend
    {| history_accounts := [("GSELLER", 1); ("GBUYER", 2)];
       history_assets := assets;
       history_trades := trades;
       exp_history_trades := exp |}
    [].

(** A stored trade of ledger [ledger]: 50 of asset 3 against 20 of asset 7. *)
Definition row (operation idx : Z) (closed : time.Time) : JoinedRow :=
  {| htrd_history_operation_id := operation;
     htrd_order := idx;
     htrd_ledger_closed_at := closed;
     htrd_offer_id := 11;
     htrd_base_offer_id := 11;
     htrd_base_account_id := 1;
     htrd_base_asset_id := 3;
     htrd_base_amount := 50;
     htrd_counter_offer_id := 12;
     htrd_counter_account_id := 2;
     htrd_counter_asset_id := 7;
     htrd_counter_amount := 20;
     htrd_base_is_seller := true;
     htrd_price_n := {| null.Int64 := 2; null.Valid := true |};
     htrd_price_d := {| null.Int64 := 5; null.Valid := true |};
     base_accounts_address := "GSELLER";
     counter_accounts_address := "GBUYER";
     base_assets_asset_type := "credit_alphanum4";
     base_assets_asset_code := "X";
     base_assets_asset_issuer := "GISSUER";
     counter_assets_asset_type := "credit_alphanum4";
     counter_assets_asset_code := "Y";
     counter_assets_asset_issuer := "GISSUER" |}.

(** The same trade stored with base and counter the other way round. *)
Definition mirror (operation idx : Z) (closed : time.Time) : JoinedRow :=
  {| htrd_history_operation_id := operation;
     htrd_order := idx;
     htrd_ledger_closed_at := closed;
     htrd_offer_id := 11;
     htrd_base_offer_id := 12;
     htrd_base_account_id := 2;
     htrd_base_asset_id := 4;
     htrd_base_amount := 20;
     htrd_counter_offer_id := 11;
     htrd_counter_account_id := 1;
     htrd_counter_asset_id := 9;
     htrd_counter_amount := 50;
     htrd_base_is_seller := false;
     htrd_price_n := {| null.Int64 := 5; null.Valid := true |};
     htrd_price_d := {| null.Int64 := 2; null.Valid := true |};
     base_accounts_address := "GBUYER";
     counter_accounts_address := "GSELLER";
     base_assets_asset_type := "credit_alphanum4";
     base_assets_asset_code := "Y";
     base_assets_asset_issuer := "GISSUER";
     counter_assets_asset_type := "credit_alphanum4";
     counter_assets_asset_code := "X";
     counter_assets_asset_issuer := "GISSUER" |}.

Definition noon : time.Time := {| time.sec := 1570000000; time.nsec := 0; time.loc := "UTC" |}.

(** The same second as [noon] in another representation. *)
Definition noon_local : time.Time :=
  {| time.sec := 1570000000; time.nsec := 250000000; time.loc := "Local" |}.

(** Ledger 1 holds operation ids from 4294967296 on; 8589934592 is the
    first id of ledger 2. *)
Definition trade_1 : JoinedRow := row 4294971392 0 noon.
Definition trade_2 : JoinedRow := row 4294971392 1 noon.
Definition next_ledger_start : JoinedRow := row 8589934592 0 noon.

(** X is asset 3 and Y asset 7; and the other way round, X is 9 and Y is 4. *)
Definition scenarioA : @Q backend := session [(assetX, 3); (assetY, 7)] [] [].
Definition scenarioB : @Q backend := session [(assetX, 9); (assetY, 4)] [] [].

Definition buyOffer : xdr.OfferEntry := {| xdr.EntryOfferId := 12 |}.
Definition price_2_5 : xdr.Price := {| xdr.N := 2; xdr.D := 5 |}.

(** The two tables hold the same trade in opposite orientation, closed in
    the same second. *)
Definition mirrored_tables : @Q backend :=
  session [] [trade_1] [mirror 4294971392 0 noon_local].


(** No candidate rows. *)
Definition empty_candidate : @Q backend := session [] [trade_1] [].

(** Two primary rows, one candidate row. *)
Definition two_against_one : @Q backend := session [] [trade_1; trade_2] [trade_1].

Definition page_after_100_1 : db2.PageQuery :=
  {| db2.Cursor := "100-1"; db2.Order := "asc"; db2.Limit := 2 |}.

Definition page_before_100_1 : db2.PageQuery :=
  {| db2.Cursor := "100-1"; db2.Order := "desc"; db2.Limit := 2 |}.

Definition malformed_page : db2.PageQuery :=
  {| db2.Cursor := "abc"; db2.Order := "asc"; db2.Limit := 10 |}.

Definition sideways_page : db2.PageQuery :=
  {| db2.Cursor := "100-1"; db2.Order := "sideways"; db2.Limit := 10 |}.

Definition sideways_malformed_page : db2.PageQuery :=
  {| db2.Cursor := "abc"; db2.Order := "sideways"; db2.Limit := 10 |}.

(** A query filtered by an account that the accounts table does not hold. *)
Definition unknown_account_trades : TradesQ :=
  @ForAccount backend Trades "GNOBODY" scenarioA.

(** A backend whose database refuses every SELECT, and one that refuses
    only those on the experimental table. *)
Definition offline : Backend := {|
  DB := Tables;
  AccountByAddress := accountByAddress;
  GetCreateAccountID := getCreateAccountID;
  GetCreateAssetID := getCreateAssetID;
  EncodeOfferId := encodeOfferId;
  CursorInt64Pair := cursorInt64Pair;
  ToInt64 := toInt64;
  ToTime := toTime;
  run_select := fun _ _ => inl (Failure "connection refused");
  run_insert := runInsert;
  dest_on_failure := fun _ _ _ => []
|}.

Definition exp_offline : Backend := {|
  DB := Tables;
  AccountByAddress := accountByAddress;
  GetCreateAccountID := getCreateAccountID;
  GetCreateAssetID := getCreateAssetID;
  EncodeOfferId := encodeOfferId;
  CursorInt64Pair := cursorInt64Pair;
  ToInt64 := toInt64;
  ToTime := toTime;
  run_select := fun b d =>
    if String.eqb (sq.sel_from b) "exp_history_trades htrd"
    then inl (Failure "connection refused") else runSelect b d;
  run_insert := runInsert;
  dest_on_failure := fun _ _ _ => []
|}.

(** A backend that looks accounts up and creates none. *)
Definition strict : Backend := {|
  DB := Tables;
  AccountByAddress := accountByAddress;
  GetCreateAccountID := fun aid d => (accountByAddress aid d, d);
  GetCreateAssetID := getCreateAssetID;
  EncodeOfferId := encodeOfferId;
  CursorInt64Pair := cursorInt64Pair;
  ToInt64 := toInt64;
  ToTime := toTime;
  run_select := runSelect;
  run_insert := runInsert;
  dest_on_failure := fun _ _ dest => dest
|}.

Definition tables (trades exp : list JoinedRow) : Tables :=
  {| history_accounts := [("GSELLER", 1); ("GBUYER", 2)];
     history_assets := [];
     history_trades := trades;
     exp_history_trades := exp |}.

(** A trade of X against X. *)
Definition self_trade : xdr.ClaimOfferAtom :=
  {| xdr.SellerId := "GSELLER"; xdr.OfferId := 11;
     xdr.AssetSold := assetX; xdr.AmountSold := 50;
     xdr.AssetBought := assetX; xdr.AmountBought := 20 |}.

(** The accounts and assets tables of [scenarioB], as functions of the id. *)
Definition address_of (id : Z) : string := if id =? 1 then "GSELLER" else "GBUYER".
Definition asset_of (id : Z) : xdr.Asset := if id =? 9 then assetX else assetY.

(** The two tables of [mirrored_tables] exchanged. *)
Definition mirrored_tables_swapped : @Q backend :=
  session [] [mirror 4294971392 0 noon_local] [trade_1].

(** The same two rows in both tables. *)
Definition equal_tables : @Q backend := session [] [trade_1; trade_2] [trade_1; trade_2].


End Sample.

(** ** Vocabulary of the properties *)

(** The strict lexicographic order on pairs (operation id, order). *)
Definition lex_lt (a b : Z * Z) : Prop :=
  fst a < fst b \/ (fst a = fst b /\ snd a < snd b).

(** The pair by which the rows of a page are ordered. *)
Definition row_key (j : JoinedRow) : Z * Z :=
  (htrd_history_operation_id j, htrd_order j).

(** The field swap as [CheckExpTrades] applies it: it runs only when the two
    rows disagree on [BaseIsSeller], so the flag it assigns is the negation
    of the row's own. *)
Definition reverseProjection (r : Trade) : Trade :=
  swapBaseCounter r (negb (BaseIsSeller r)).

(** Two rows agree on every field but the ledger close time. *)
Definition same_fields (trade expTrade : Trade) : Prop :=
  HistoryOperationID expTrade = HistoryOperationID trade /\
  Order expTrade = Order trade /\
  OfferID expTrade = OfferID trade /\
  BaseOfferID expTrade = BaseOfferID trade /\
  BaseAccount expTrade = BaseAccount trade /\
  BaseAssetType expTrade = BaseAssetType trade /\
  BaseAssetCode expTrade = BaseAssetCode trade /\
  BaseAssetIssuer expTrade = BaseAssetIssuer trade /\
  BaseAmount expTrade = BaseAmount trade /\
  CounterOfferID expTrade = CounterOfferID trade /\
  CounterAccount expTrade = CounterAccount trade /\
  CounterAssetType expTrade = CounterAssetType trade /\
  CounterAssetCode expTrade = CounterAssetCode trade /\
  CounterAssetIssuer expTrade = CounterAssetIssuer trade /\
  CounterAmount expTrade = CounterAmount trade /\
  BaseIsSeller expTrade = BaseIsSeller trade /\
  PriceN expTrade = PriceN trade /\
  PriceD expTrade = PriceD trade.

(** Two rows differ only by opposite canonical orientation: [BaseIsSeller]
    differs, the base and counter fields are mirrored, the price is swapped,
    and the remaining fields but the close time agree. *)
Definition mirrored (trade expTrade : Trade) : Prop :=
  HistoryOperationID expTrade = HistoryOperationID trade /\
  Order expTrade = Order trade /\
  OfferID expTrade = OfferID trade /\
  BaseOfferID expTrade = CounterOfferID trade /\
  BaseAccount expTrade = CounterAccount trade /\
  BaseAssetType expTrade = CounterAssetType trade /\
  BaseAssetCode expTrade = CounterAssetCode trade /\
  BaseAssetIssuer expTrade = CounterAssetIssuer trade /\
  BaseAmount expTrade = CounterAmount trade /\
  CounterOfferID expTrade = BaseOfferID trade /\
  CounterAccount expTrade = BaseAccount trade /\
  CounterAssetType expTrade = BaseAssetType trade /\
  CounterAssetCode expTrade = BaseAssetCode trade /\
  CounterAssetIssuer expTrade = BaseAssetIssuer trade /\
  CounterAmount expTrade = BaseAmount trade /\
  BaseIsSeller expTrade = negb (BaseIsSeller trade) /\
  PriceN expTrade = PriceD trade /\
  PriceD expTrade = PriceN trade.

(** Corresponding rows that [CheckExpTrades] is to accept: close times equal
    to the second, and equal or mirrored fields. *)
Definition consistent_rows (trade expTrade : Trade) : Prop :=
  time.Unix (LedgerCloseTime expTrade) = time.Unix (LedgerCloseTime trade) /\
  (same_fields trade expTrade \/ mirrored trade expTrade).

(** The test that one turn of the loop of [CheckExpTrades] makes. *)
Definition rows_agree (trade expTrade : Trade) : bool :=
  (time.Unix (LedgerCloseTime expTrade) =? time.Unix (LedgerCloseTime trade))
  && DeepEqual (alignExpTrade trade expTrade) trade.

(** The values that [InsertTrade] binds to the columns of [tradesInsert]
    once the four ids are resolved and the two offer ids encoded. *)
Definition insertedValues (opid order : Z) (closedAt : time.Time) (trade : xdr.ClaimOfferAtom)
    (sellPrice : xdr.Price) (sellOfferId buyOfferId : Z)
    (sellerAccountId buyerAccountId soldAssetId boughtAssetId : Z) : list sq.value :=
  if soldAssetId <? boughtAssetId
  then [ sq.VInt opid; sq.VInt order; sq.VTime closedAt; sq.VInt (xdr.OfferId trade);
         sq.VInt sellOfferId; sq.VInt sellerAccountId; sq.VInt soldAssetId;
         sq.VInt (xdr.AmountSold trade);
         sq.VInt buyOfferId; sq.VInt buyerAccountId; sq.VInt boughtAssetId;
         sq.VInt (xdr.AmountBought trade);
         sq.VBool true; sq.VInt (xdr.N sellPrice); sq.VInt (xdr.D sellPrice) ]
  else [ sq.VInt opid; sq.VInt order; sq.VTime closedAt; sq.VInt (xdr.OfferId trade);
         sq.VInt buyOfferId; sq.VInt buyerAccountId; sq.VInt boughtAssetId;
         sq.VInt (xdr.AmountBought trade);
         sq.VInt sellOfferId; sq.VInt sellerAccountId; sq.VInt soldAssetId;
         sq.VInt (xdr.AmountSold trade);
         sq.VBool false; sq.VInt (xdr.D sellPrice); sq.VInt (xdr.N sellPrice) ].

(** The integer, boolean or time that an INSERT stores in a column. *)
Definition stored_int (b : sq.InsertBuilder) (name : string) : option Z :=
  match sq.stored b name with Some (sq.VInt z) => Some z | _ => None end.

Definition stored_bool (b : sq.InsertBuilder) (name : string) : option bool :=
  match sq.stored b name with Some (sq.VBool x) => Some x | _ => None end.

Definition stored_time (b : sq.InsertBuilder) (name : string) : option time.Time :=
  match sq.stored b name with Some (sq.VTime t) => Some t | _ => None end.

(** The row that an executed INSERT adds to [history_trades], joined as
    [joinTradeAccounts] and [joinTradeAssets] join it (on the account ids and
    on the asset ids): [accounts] gives the address of an account id and
    [assets] the asset of an asset id. *)
Definition joinedRow (accounts : Z -> string) (assets : Z -> xdr.Asset)
    (b : sq.InsertBuilder) : option JoinedRow :=
  operation ← stored_int b "history_operation_id";
  idx ← stored_int b "order";
  closed ← stored_time b "ledger_closed_at";
  offer ← stored_int b "offer_id";
  base_offer ← stored_int b "base_offer_id";
  base_account ← stored_int b "base_account_id";
  base_asset ← stored_int b "base_asset_id";
  base_amount ← stored_int b "base_amount";
  counter_offer ← stored_int b "counter_offer_id";
  counter_account ← stored_int b "counter_account_id";
  counter_asset ← stored_int b "counter_asset_id";
  counter_amount ← stored_int b "counter_amount";
  base_is_seller ← stored_bool b "base_is_seller";
  price_n ← stored_int b "price_n";
  price_d ← stored_int b "price_d";
  Some {| htrd_history_operation_id := operation;
          htrd_order := idx;
          htrd_ledger_closed_at := closed;
          htrd_offer_id := offer;
          htrd_base_offer_id := base_offer;
          htrd_base_account_id := base_account;
          htrd_base_asset_id := base_asset;
          htrd_base_amount := base_amount;
          htrd_counter_offer_id := counter_offer;
          htrd_counter_account_id := counter_account;
          htrd_counter_asset_id := counter_asset;
          htrd_counter_amount := counter_amount;
          htrd_base_is_seller := base_is_seller;
          htrd_price_n := {| null.Int64 := price_n; null.Valid := true |};
          htrd_price_d := {| null.Int64 := price_d; null.Valid := true |};
          base_accounts_address := accounts base_account;
          counter_accounts_address := accounts counter_account;
          base_assets_asset_type := xdr.AssetType (assets base_asset);
          base_assets_asset_code := xdr.AssetCode (assets base_asset);
          base_assets_asset_issuer := xdr.AssetIssuer (assets base_asset);
          counter_assets_asset_type := xdr.AssetType (assets counter_asset);
          counter_assets_asset_code := xdr.AssetCode (assets counter_asset);
          counter_assets_asset_issuer := xdr.AssetIssuer (assets counter_asset) |}.

(** The trade as its seller sees it: what a query for the pair (sold, bought)
    is to return for a recorded trade. *)
Definition sellerView (opid order : Z) (closedAt : time.Time) (trade : xdr.ClaimOfferAtom)
    (sellPrice : xdr.Price) (sellOfferId buyOfferId : Z)
    (seller buyer : string) (sold bought : xdr.Asset) : Trade :=
  {| HistoryOperationID := opid;
     Order := order;
     LedgerCloseTime := closedAt;
     OfferID := xdr.OfferId trade;
     BaseOfferID := sellOfferId;
     BaseAccount := seller;
     BaseAssetType := xdr.AssetType sold;
     BaseAssetCode := xdr.AssetCode sold;
     BaseAssetIssuer := xdr.AssetIssuer sold;
     BaseAmount := xdr.AmountSold trade;
     CounterOfferID := buyOfferId;
     CounterAccount := buyer;
     CounterAssetType := xdr.AssetType bought;
     CounterAssetCode := xdr.AssetCode bought;
     CounterAssetIssuer := xdr.AssetIssuer bought;
     CounterAmount := xdr.AmountBought trade;
     BaseIsSeller := true;
     PriceN := {| null.Int64 := xdr.N sellPrice; null.Valid := true |};
     PriceD := {| null.Int64 := xdr.D sellPrice; null.Valid := true |} |}.

(** The two offer ids that [InsertTrade] encodes: the seller's offer always
    as a core offer id; the buyer's as a core offer id if the buy offer
    exists, and the operation id under the other type otherwise. *)
Definition sellOfferIdOf `{Backend} (trade : xdr.ClaimOfferAtom) : Z :=
  EncodeOfferId (uint64 (xdr.OfferId trade)) CoreOfferIDType.

Definition buyOfferIdOf `{Backend} (opid : Z) (buyOfferExists : bool)
    (buyOffer : xdr.OfferEntry) : Z :=
  if buyOfferExists
  then EncodeOfferId (uint64 (xdr.EntryOfferId buyOffer)) CoreOfferIDType
  else EncodeOfferId (uint64 opid) TOIDType.

(** The columns of a stored row when the seller is on the base side: base
    account, amount and offer id are the seller's, the base asset is the
    sold one, the counter side is the buyer's, the price is the sell price
    and [base_is_seller] is true. *)
Definition seller_on_base_side (row : sq.InsertBuilder) (trade : xdr.ClaimOfferAtom)
    (sellPrice : xdr.Price) (sellOfferId buyOfferId : Z)
    (sellerAccountId buyerAccountId soldAssetId boughtAssetId : Z) : Prop :=
  sq.stored row "base_account_id" = Some (sq.VInt sellerAccountId) /\
  sq.stored row "base_amount" = Some (sq.VInt (xdr.AmountSold trade)) /\
  sq.stored row "base_offer_id" = Some (sq.VInt sellOfferId) /\
  sq.stored row "base_asset_id" = Some (sq.VInt soldAssetId) /\
  sq.stored row "counter_account_id" = Some (sq.VInt buyerAccountId) /\
  sq.stored row "counter_amount" = Some (sq.VInt (xdr.AmountBought trade)) /\
  sq.stored row "counter_offer_id" = Some (sq.VInt buyOfferId) /\
  sq.stored row "counter_asset_id" = Some (sq.VInt boughtAssetId) /\
  sq.stored row "price_n" = Some (sq.VInt (xdr.N sellPrice)) /\
  sq.stored row "price_d" = Some (sq.VInt (xdr.D sellPrice)) /\
  sq.stored row "base_is_seller" = Some (sq.VBool true).

(** The columns of a stored row when the sides are swapped: the buyer is on
    the base side, the seller on the counter side, numerator and denominator
    of the sell price are exchanged and [base_is_seller] is false. *)
Definition buyer_on_base_side (row : sq.InsertBuilder) (trade : xdr.ClaimOfferAtom)
    (sellPrice : xdr.Price) (sellOfferId buyOfferId : Z)
    (sellerAccountId buyerAccountId soldAssetId boughtAssetId : Z) : Prop :=
  sq.stored row "base_account_id" = Some (sq.VInt buyerAccountId) /\
  sq.stored row "base_amount" = Some (sq.VInt (xdr.AmountBought trade)) /\
  sq.stored row "base_offer_id" = Some (sq.VInt buyOfferId) /\
  sq.stored row "base_asset_id" = Some (sq.VInt boughtAssetId) /\
  sq.stored row "counter_account_id" = Some (sq.VInt sellerAccountId) /\
  sq.stored row "counter_amount" = Some (sq.VInt (xdr.AmountSold trade)) /\
  sq.stored row "counter_offer_id" = Some (sq.VInt sellOfferId) /\
  sq.stored row "counter_asset_id" = Some (sq.VInt soldAssetId) /\
  sq.stored row "price_n" = Some (sq.VInt (xdr.D sellPrice)) /\
  sq.stored row "price_d" = Some (sq.VInt (xdr.N sellPrice)) /\
  sq.stored row "base_is_seller" = Some (sq.VBool false).

(** A string without a dash. *)
Fixpoint dashless (s : string) : bool :=
  match s with
  | EmptyString => true
  | String a rest => negb (Ascii.eqb a "-"%char) && dashless rest
  end.

(** Whether an offer id is on one of the two sides of a trade. *)
Definition has_offer (id : Z) (r : Trade) : bool :=
  (BaseOfferID r =? id) || (CounterOfferID r =? id).

(** A builder that reads what [q] reads (select list, table, joins) and
    returns no row that [q] does not return. *)
Definition narrows (q' q : sq.SelectBuilder) : Prop :=
  sq.sel_columns q' = sq.sel_columns q /\
  sq.sel_from q' = sq.sel_from q /\
  sq.sel_joins q' = sq.sel_joins q /\
  forall j : JoinedRow, sq.matches q' j = true -> sq.matches q j = true.

(** ** Canonical asset order *)

Lemma getCanonicalAssetOrder_lt (idA idB : Z) :
  idA < idB -> getCanonicalAssetOrder idA idB = (true, idA, idB).
Proof.
  intros Hlt. unfold getCanonicalAssetOrder.
  destruct (Z.ltb_spec idA idB); [reflexivity | lia].
Qed.

Lemma getCanonicalAssetOrder_ge (idA idB : Z) :
  idB <= idA -> getCanonicalAssetOrder idA idB = (false, idB, idA).
Proof.
  intros Hge. unfold getCanonicalAssetOrder.
  destruct (Z.ltb_spec idA idB); [lia | reflexivity].
Qed.

(** C5. For distinct asset ids, [getCanonicalAssetOrder idA idB] is
    [(true, idA, idB)] when [idA < idB] and [(false, idB, idA)] otherwise;
    so the two orders of the arguments give the same (base, counter) pair
    and opposite [orderPreserved] flags. *)
Theorem getCanonicalAssetOrder_canonical (idA idB : Z) :
  idA <> idB ->
  (idA < idB -> getCanonicalAssetOrder idA idB = (true, idA, idB)) /\
  (~ idA < idB -> getCanonicalAssetOrder idA idB = (false, idB, idA)) /\
  (exists orderPreserved base counter,
      getCanonicalAssetOrder idA idB = (orderPreserved, base, counter) /\
      getCanonicalAssetOrder idB idA = (negb orderPreserved, base, counter)).
Proof.
  intros Hne. split; [|split].
  - apply getCanonicalAssetOrder_lt.
  - intros Hnlt. apply getCanonicalAssetOrder_ge. lia.
  - destruct (Z.lt_ge_cases idA idB) as [Hlt | Hge].
    + exists true, idA, idB. split.
      * now apply getCanonicalAssetOrder_lt.
      * apply getCanonicalAssetOrder_ge. lia.
    + exists false, idB, idA. split.
      * now apply getCanonicalAssetOrder_ge.
      * apply getCanonicalAssetOrder_lt. lia.
Qed.

Lemma getCanonicalAssetOrder_canonical_witness :
  getCanonicalAssetOrder 9 4 = (false, 4, 9) /\
  getCanonicalAssetOrder 4 9 = (true, 4, 9).
Proof.
  destruct (getCanonicalAssetOrder_canonical 9 4 ltac:(lia)) as (_ & Hge & _).
  destruct (getCanonicalAssetOrder_canonical 4 9 ltac:(lia)) as (Hlt & _ & _).
  split; [apply Hge | apply Hlt]; lia.
Defined.

(** ** Reverse projection *)

Lemma swapBaseCounter_twice (r : Trade) (flag : bool) :
  swapBaseCounter (swapBaseCounter r flag) (BaseIsSeller r) = r.
Proof. destruct r; reflexivity. Qed.

(** When the two rows disagree on [BaseIsSeller], the candidate row compared
    by [CheckExpTrades] is the reverse projection of the fetched one, close
    time apart. *)
Lemma alignExpTrade_reverse (trade expTrade : Trade) :
  BaseIsSeller expTrade <> BaseIsSeller trade ->
  alignExpTrade trade expTrade
  = reverseProjection (setLedgerCloseTime expTrade (LedgerCloseTime trade)).
Proof.
  intros Hne. unfold alignExpTrade, reverseProjection. cbn [BaseIsSeller setLedgerCloseTime].
  destruct (BaseIsSeller expTrade), (BaseIsSeller trade); try congruence; reflexivity.
Qed.

(** C6. The reverse-projection swap (base and counter offer ids, accounts,
    asset fields and amounts exchanged, [price_n] and [price_d] swapped,
    [base_is_seller] flipped) applied twice returns the original row; the
    reverse select list reads the swap of what the plain select list reads,
    and the swap of what it reads is what the plain one reads. *)
Theorem reverseProjection_involutive :
  (forall r : Trade, reverseProjection (reverseProjection r) = r) /\
  (forall j : JoinedRow, selectReverseTradeFields j = reverseProjection (selectTradeFields j)) /\
  (forall j : JoinedRow, reverseProjection (selectReverseTradeFields j) = selectTradeFields j).
Proof.
  split; [|split].
  - intros r. unfold reverseProjection. cbn [BaseIsSeller swapBaseCounter].
    rewrite negb_involutive. apply swapBaseCounter_twice.
  - intros j. reflexivity.
  - intros j. unfold reverseProjection, selectReverseTradeFields, selectTradeFields, swapBaseCounter.
    cbn. now rewrite negb_involutive.
Qed.

Section Properties.

Context `{Backend}.

(** ** Recording a trade *)

Lemma Q_GetCreateAccountID_executed (id : xdr.AccountId) (s s' : Q) (r : error + Z) :
  Q_GetCreateAccountID id s = (r, s') -> executed s' = executed s.
Proof.
  unfold Q_GetCreateAccountID.
  destruct (GetCreateAccountID id (database s)) as [r0 d].
  intros [= _ <-]. reflexivity.
Qed.

Lemma Q_GetCreateAssetID_executed (asset : xdr.Asset) (s s' : Q) (r : error + Z) :
  Q_GetCreateAssetID asset s = (r, s') -> executed s' = executed s.
Proof.
  unfold Q_GetCreateAssetID.
  destruct (GetCreateAssetID asset (database s)) as [r0 d].
  intros [= _ <-]. reflexivity.
Qed.

Lemma Q_Exec_executed (b : sq.InsertBuilder) (s s' : Q) (r : option error) :
  Q_Exec b s = (r, s') -> executed s' = executed s ++ [Exec b].
Proof.
  unfold Q_Exec.
  destruct (run_insert b (database s)) as [r0 d].
  intros [= _ <-]. reflexivity.
Qed.

(** Once the four ids are resolved, [InsertTrade] executes one INSERT of
    [insertedValues] and wraps the error of the database, if any. *)
Lemma InsertTrade_resolved
    (opid order : Z) (buyer : xdr.AccountId) (buyOfferExists : bool)
    (buyOffer : xdr.OfferEntry) (trade : xdr.ClaimOfferAtom) (sellPrice : xdr.Price)
    (ledgerClosedAt : Z) (s s1 s2 s3 s4 : Q)
    (sellerAccountId buyerAccountId soldAssetId boughtAssetId : Z) :
  Q_GetCreateAccountID (xdr.SellerId trade) s = (inr sellerAccountId, s1) ->
  Q_GetCreateAccountID buyer s1 = (inr buyerAccountId, s2) ->
  Q_GetCreateAssetID (xdr.AssetSold trade) s2 = (inr soldAssetId, s3) ->
  Q_GetCreateAssetID (xdr.AssetBought trade) s3 = (inr boughtAssetId, s4) ->
  InsertTrade opid order buyer buyOfferExists buyOffer trade sellPrice ledgerClosedAt s
  = match Q_Exec (sq.Values tradesInsert
                    (insertedValues opid order (ToTime ledgerClosedAt) trade sellPrice
                       (sellOfferIdOf trade) (buyOfferIdOf opid buyOfferExists buyOffer)
                       sellerAccountId buyerAccountId soldAssetId boughtAssetId)) s4 with
    | (Some err, s') => (Some (Wrap err "failed to exec sql"), s')
    | (None, s') => (None, s')
    end.
Proof.
  intros E1 E2 E3 E4. unfold InsertTrade. rewrite E1, E2, E3, E4.
  unfold getCanonicalAssetOrder, insertedValues, sellOfferIdOf, buyOfferIdOf.
  destruct (soldAssetId <? boughtAssetId); reflexivity.
Qed.

Lemma Q_Exec_outcome (b : sq.InsertBuilder) (s : Q) :
  executed (snd (Q_Exec b s)) = executed s ++ [Exec b].
Proof.
  unfold Q_Exec. destruct (run_insert b (database s)) as [r d]. reflexivity.
Qed.

(** C1. Every trade that [InsertTrade] records had its four ids resolved
    and is one INSERT into [history_trades]: with the sold asset's id less
    than the bought asset's id, the row has the seller on the base side
    (account, amount sold, sell offer id, sold asset), the buyer on the
    counter side, the sell price as given and [base_is_seller] true; with
    the sold asset's id greater, the sides are exchanged, numerator and
    denominator of the price are swapped and [base_is_seller] is false.
    And a trade is recorded: whenever the four ids resolve, [InsertTrade]
    hands that row to the database and returns nil if the database accepts
    it (its error, wrapped, if not). *)
Theorem InsertTrade_canonical_row
    (opid order : Z) (buyer : xdr.AccountId) (buyOfferExists : bool)
    (buyOffer : xdr.OfferEntry) (trade : xdr.ClaimOfferAtom) (sellPrice : xdr.Price)
    (ledgerClosedAt : Z) (s : Q) :
  (forall s' : Q,
      InsertTrade opid order buyer buyOfferExists buyOffer trade sellPrice ledgerClosedAt s
        = (None, s') ->
      exists (s1 s2 s3 s4 : Q)
             (sellerAccountId buyerAccountId soldAssetId boughtAssetId : Z)
             (row : sq.InsertBuilder),
        Q_GetCreateAccountID (xdr.SellerId trade) s = (inr sellerAccountId, s1) /\
        Q_GetCreateAccountID buyer s1 = (inr buyerAccountId, s2) /\
        Q_GetCreateAssetID (xdr.AssetSold trade) s2 = (inr soldAssetId, s3) /\
        Q_GetCreateAssetID (xdr.AssetBought trade) s3 = (inr boughtAssetId, s4) /\
        Q_Exec row s4 = (None, s') /\
        executed s' = executed s ++ [Exec row] /\
        sq.ins_into row = "history_trades" /\
        sq.stored row "history_operation_id" = Some (sq.VInt opid) /\
        sq.stored row "order" = Some (sq.VInt order) /\
        (soldAssetId < boughtAssetId ->
           seller_on_base_side row trade sellPrice
             (sellOfferIdOf trade) (buyOfferIdOf opid buyOfferExists buyOffer)
             sellerAccountId buyerAccountId soldAssetId boughtAssetId) /\
        (boughtAssetId < soldAssetId ->
           buyer_on_base_side row trade sellPrice
             (sellOfferIdOf trade) (buyOfferIdOf opid buyOfferExists buyOffer)
             sellerAccountId buyerAccountId soldAssetId boughtAssetId)) /\
  (forall (s1 s2 s3 s4 : Q)
          (sellerAccountId buyerAccountId soldAssetId boughtAssetId : Z),
      Q_GetCreateAccountID (xdr.SellerId trade) s = (inr sellerAccountId, s1) ->
      Q_GetCreateAccountID buyer s1 = (inr buyerAccountId, s2) ->
      Q_GetCreateAssetID (xdr.AssetSold trade) s2 = (inr soldAssetId, s3) ->
      Q_GetCreateAssetID (xdr.AssetBought trade) s3 = (inr boughtAssetId, s4) ->
      exists row : sq.InsertBuilder,
        InsertTrade opid order buyer buyOfferExists buyOffer trade sellPrice ledgerClosedAt s
          = match Q_Exec row s4 with
            | (Some err, s') => (Some (Wrap err "failed to exec sql"), s')
            | (None, s') => (None, s')
            end /\
        sq.ins_into row = "history_trades" /\
        sq.stored row "history_operation_id" = Some (sq.VInt opid) /\
        sq.stored row "order" = Some (sq.VInt order) /\
        (soldAssetId < boughtAssetId ->
           seller_on_base_side row trade sellPrice
             (sellOfferIdOf trade) (buyOfferIdOf opid buyOfferExists buyOffer)
             sellerAccountId buyerAccountId soldAssetId boughtAssetId) /\
        (boughtAssetId < soldAssetId ->
           buyer_on_base_side row trade sellPrice
             (sellOfferIdOf trade) (buyOfferIdOf opid buyOfferExists buyOffer)
             sellerAccountId buyerAccountId soldAssetId boughtAssetId)).
Proof.
  assert (Hrow : forall sellerAccountId buyerAccountId soldAssetId boughtAssetId : Z,
             let row := sq.Values tradesInsert
                          (insertedValues opid order (ToTime ledgerClosedAt) trade sellPrice
                             (sellOfferIdOf trade) (buyOfferIdOf opid buyOfferExists buyOffer)
                             sellerAccountId buyerAccountId soldAssetId boughtAssetId) in
             sq.ins_into row = "history_trades" /\
             sq.stored row "history_operation_id" = Some (sq.VInt opid) /\
             sq.stored row "order" = Some (sq.VInt order) /\
             (soldAssetId < boughtAssetId ->
                seller_on_base_side row trade sellPrice
                  (sellOfferIdOf trade) (buyOfferIdOf opid buyOfferExists buyOffer)
                  sellerAccountId buyerAccountId soldAssetId boughtAssetId) /\
             (boughtAssetId < soldAssetId ->
                buyer_on_base_side row trade sellPrice
                  (sellOfferIdOf trade) (buyOfferIdOf opid buyOfferExists buyOffer)
                  sellerAccountId buyerAccountId soldAssetId boughtAssetId)).
  { intros seller buyerId sold bought row. subst row.
    unfold insertedValues, seller_on_base_side, buyer_on_base_side.
    destruct (Z.ltb_spec sold bought) as [Hlt | Hge];
      repeat split; solve [reflexivity | lia]. }
  split.
  - intros s' Hrun.
    destruct (Q_GetCreateAccountID (xdr.SellerId trade) s) as [[e1 | seller] s1] eqn:E1;
      [unfold InsertTrade in Hrun; rewrite E1 in Hrun; discriminate |].
    destruct (Q_GetCreateAccountID buyer s1) as [[e2 | buyerId] s2] eqn:E2;
      [unfold InsertTrade in Hrun; rewrite E1, E2 in Hrun; discriminate |].
    destruct (Q_GetCreateAssetID (xdr.AssetSold trade) s2) as [[e3 | sold] s3] eqn:E3;
      [unfold InsertTrade in Hrun; rewrite E1, E2, E3 in Hrun; discriminate |].
    destruct (Q_GetCreateAssetID (xdr.AssetBought trade) s3) as [[e4 | bought] s4] eqn:E4;
      [unfold InsertTrade in Hrun; rewrite E1, E2, E3, E4 in Hrun; discriminate |].
    rewrite (InsertTrade_resolved _ _ _ _ _ _ _ _ _ _ _ _ _ _ _ _ _ E1 E2 E3 E4) in Hrun.
    match type of Hrun with context [Q_Exec ?b s4] => set (row := b) in * end.
    destruct (Q_Exec row s4) as [[e5 |] s5] eqn:E5; [discriminate |].
    injection Hrun as <-.
    exists s1, s2, s3, s4, seller, buyerId, sold, bought, row.
    split; [reflexivity |]. split; [exact E2 |]. split; [exact E3 |]. split; [exact E4 |].
    split; [exact E5 |].
    split; [| exact (Hrow seller buyerId sold bought)].
    rewrite (Q_Exec_executed _ _ _ _ E5), (Q_GetCreateAssetID_executed _ _ _ _ E4),
      (Q_GetCreateAssetID_executed _ _ _ _ E3), (Q_GetCreateAccountID_executed _ _ _ _ E2),
      (Q_GetCreateAccountID_executed _ _ _ _ E1).
    reflexivity.
  - intros s1 s2 s3 s4 seller buyerId sold bought E1 E2 E3 E4.
    rewrite (InsertTrade_resolved _ _ _ _ _ _ _ _ _ _ _ _ _ _ _ _ _ E1 E2 E3 E4).
    eexists. split; [reflexivity |]. exact (Hrow seller buyerId sold bought).
Qed.

(** ** Filters and paging *)

Lemma matches_Where (b : sq.SelectBuilder) (c : sq.cond) (j : JoinedRow) :
  sq.matches (sq.Where b c) j = sq.matches b j && sq.holds c j.
Proof.
  unfold sq.matches, sq.Where. cbn [sq.sel_where].
  rewrite forallb_app. cbn [forallb]. now rewrite andb_true_r.
Qed.

Lemma matches_ForLedger (q : TradesQ) (sequence : Z) (order : string) (j : JoinedRow) :
  sq.matches (sql (ForLedger q sequence order)) j
  = sq.matches (sql q) j
    && ((ToInt64 {| toid.LedgerSequence := sequence;
                    toid.TransactionOrder := 0; toid.OperationOrder := 0 |}
           <=? htrd_history_operation_id j)
        && (htrd_history_operation_id j
              <=? ToInt64 {| toid.LedgerSequence := wrap_int32 (sequence + 1);
                             toid.TransactionOrder := 0; toid.OperationOrder := 0 |})).
Proof.
  unfold ForLedger. cbn [sql].
  change (sq.matches (sq.OrderBy ?b ?o) j) with (sq.matches b j).
  rewrite matches_Where. reflexivity.
Qed.

(** C3. The filter of [ForLedger] is closed at its upper end: a row whose
    operation id is the first id of ledger [sequence + 1] passes it, for
    whatever encoding of ids puts the start of a ledger before the start of
    the next.  The half-open range from toid(seq) to toid(seq+1) leaves that
    id out. *)
Theorem ForLedger_admits_next_ledger_start
    (q : TradesQ) (sequence : Z) (order : string) (j : JoinedRow) :
  ToInt64 {| toid.LedgerSequence := sequence;
             toid.TransactionOrder := 0; toid.OperationOrder := 0 |}
    <= ToInt64 {| toid.LedgerSequence := wrap_int32 (sequence + 1);
                  toid.TransactionOrder := 0; toid.OperationOrder := 0 |} ->
  htrd_history_operation_id j
    = ToInt64 {| toid.LedgerSequence := wrap_int32 (sequence + 1);
                 toid.TransactionOrder := 0; toid.OperationOrder := 0 |} ->
  sq.matches (sql q) j = true ->
  sq.matches (sql (ForLedger q sequence order)) j = true.
Proof.
  intros Hle Hid Hq. rewrite matches_ForLedger, Hq, Hid. cbn [andb].
  apply andb_true_iff. split; apply Z.leb_le; [exact Hle | lia].
Qed.

Lemma pageAscending_lex (op idx : Z) (j : JoinedRow) :
  sq.holds (pageAscending op idx) j = true <-> lex_lt (op, idx) (row_key j).
Proof.
  unfold lex_lt, row_key. cbn.
  rewrite andb_true_iff, orb_true_iff, andb_true_iff.
  rewrite Z.leb_le, !Z.ltb_lt, Z.eqb_eq. lia.
Qed.

Lemma pageDescending_lex (op idx : Z) (j : JoinedRow) :
  sq.holds (pageDescending op idx) j = true <-> lex_lt (row_key j) (op, idx).
Proof.
  unfold lex_lt, row_key. cbn.
  rewrite andb_true_iff, orb_true_iff, andb_true_iff.
  rewrite Z.leb_le, !Z.ltb_lt, Z.eqb_eq. lia.
Qed.

(** C4. The cursor condition that [Page] adds is a strict lexicographic
    comparison on (operation id, order): for "asc" a row satisfies it if and
    only if its key is greater than the cursor (op, idx), for "desc" if and
    only if its key is less, idx being the cursor's second part held to 32
    bits. *)
Theorem Page_cursor_lexicographic (q : TradesQ) (page : db2.PageQuery) (op idx : Z) :
  Err q = None ->
  CursorInt64Pair page db2.DefaultPairSep = inr (op, idx) ->
  let idx := if MaxInt32 <? idx then MaxInt32 else idx in
  (db2.Order page = "asc" ->
     sq.sel_where (sql (Page q page)) = sq.sel_where (sql q) ++ [pageAscending op idx] /\
     forall j : JoinedRow,
       sq.holds (pageAscending op idx) j = true <-> lex_lt (op, idx) (row_key j)) /\
  (db2.Order page = "desc" ->
     sq.sel_where (sql (Page q page)) = sq.sel_where (sql q) ++ [pageDescending op idx] /\
     forall j : JoinedRow,
       sq.holds (pageDescending op idx) j = true <-> lex_lt (row_key j) (op, idx)).
Proof.
  intros Hok Hcursor idx'. unfold Page. rewrite Hok, Hcursor. fold idx'.
  split; intros Horder; rewrite Horder; cbn.
  - split; [reflexivity | apply pageAscending_lex].
  - split; [reflexivity | apply pageDescending_lex].
Qed.

(** C9, amended. When the cursor of the page does not parse: on a builder
    that holds no earlier error, [Page] records the parse error and [Select]
    returns it; on a builder that already holds an error, [Page] leaves the
    builder as it is and [Select] returns the earlier error.  In both cases
    [Select] hands no statement to the database. *)
Theorem Page_malformed_cursor
    (q : TradesQ) (page : db2.PageQuery) (err : error) (dest : list Trade) (s : Q) :
  CursorInt64Pair page db2.DefaultPairSep = inl err ->
  (Err q = None ->
     Page q page = {| Err := Some err; sql := sql q |} /\
     Select (Page q page) dest s = (Some err, Page q page, dest, s)) /\
  (forall earlier : error, Err q = Some earlier ->
     Page q page = q /\
     Select (Page q page) dest s = (Some earlier, q, dest, s)).
Proof.
  intros Hcursor. split.
  - intros Hok. assert (Hpage : Page q page = {| Err := Some err; sql := sql q |}).
    { unfold Page. now rewrite Hok, Hcursor. }
    split; [exact Hpage |]. rewrite Hpage. reflexivity.
  - intros earlier Hearlier. assert (Hpage : Page q page = q).
    { unfold Page. now rewrite Hearlier. }
    split; [exact Hpage |]. rewrite Hpage. unfold Select. now rewrite Hearlier.
Qed.

(** C10, amended. For a page whose order is neither "asc" nor "desc", whose
    cursor parses, on a builder that holds no earlier error: [Page] adds no
    condition and no ordering, sets the limit and records no error. *)
Theorem Page_unknown_order (q : TradesQ) (page : db2.PageQuery) (op idx : Z) :
  Err q = None ->
  CursorInt64Pair page db2.DefaultPairSep = inr (op, idx) ->
  db2.Order page <> "asc" ->
  db2.Order page <> "desc" ->
  Page q page = {| Err := None; sql := sq.Limit (sql q) (db2.Limit page) |} /\
  sq.sel_where (sql (Page q page)) = sq.sel_where (sql q) /\
  sq.sel_order_by (sql (Page q page)) = sq.sel_order_by (sql q) /\
  sq.sel_limit (sql (Page q page)) = Some (db2.Limit page) /\
  Err (Page q page) = None.
Proof.
  intros Hok Hcursor Hasc Hdesc.
  assert (Hpage : Page q page = {| Err := None; sql := sq.Limit (sql q) (db2.Limit page) |}).
  { unfold Page. rewrite Hok, Hcursor.
    apply String.eqb_neq in Hasc, Hdesc. now rewrite Hasc, Hdesc. }
  rewrite Hpage. repeat split.
Qed.

(** ** The consistency check *)

Lemma alignExpTrade_eq_iff (trade expTrade : Trade) :
  alignExpTrade trade expTrade = trade <->
  same_fields trade expTrade \/ mirrored trade expTrade.
Proof.
  destruct trade as [op1 or1 cl1 of1 bo1 ba1 bt1 bc1 bi1 bm1 co1 ca1 ct1 cc1 ci1 cm1 fl1 pn1 pd1].
  destruct expTrade as [op2 or2 cl2 of2 bo2 ba2 bt2 bc2 bi2 bm2 co2 ca2 ct2 cc2 ci2 cm2 fl2 pn2 pd2].
  unfold alignExpTrade, same_fields, mirrored. cbn.
  destruct fl1, fl2; cbn; split.
  all: try (intros Heq; injection Heq as Heq; intros; subst;
            first [left; repeat split; reflexivity | right; repeat split; reflexivity]).
  all: intros [Hs | Hm];
    [ destruct Hs as (? & ? & ? & ? & ? & ? & ? & ? & ? & ? & ? & ? & ? & ? & ? & Hfl & ? & ?)
    | destruct Hm as (? & ? & ? & ? & ? & ? & ? & ? & ? & ? & ? & ? & ? & ? & ? & Hfl & ? & ?) ];
    first [discriminate Hfl | subst; reflexivity].
Qed.

Lemma rows_agree_iff (trade expTrade : Trade) :
  rows_agree trade expTrade = true <-> consistent_rows trade expTrade.
Proof.
  unfold rows_agree, consistent_rows, DeepEqual.
  rewrite andb_true_iff, Z.eqb_eq, bool_decide_eq_true.
  now rewrite alignExpTrade_eq_iff.
Qed.


(** One turn of the loop. *)
Lemma compareTrades_cons (i : nat) (trade expTrade : Trade) (rest expTrades : list Trade) :
  expTrades !! i = Some expTrade ->
  compareTrades i (trade :: rest) expTrades
  = if rows_agree trade expTrade then compareTrades (S i) rest expTrades else Some false.
Proof.
  intros Hi. cbn [compareTrades]. rewrite Hi. unfold rows_agree.
  destruct (time.Unix (LedgerCloseTime expTrade) =? time.Unix (LedgerCloseTime trade));
    cbn; [| reflexivity].
  destruct (DeepEqual (alignExpTrade trade expTrade) trade); reflexivity.
Qed.

(** With as many candidate rows left as primary rows, the loop ends without
    a panic, and accepts when every turn does. *)
Lemma compareTrades_spec (trades expTrades : list Trade) (i : nat) :
  length expTrades = (i + length trades)%nat ->
  compareTrades i trades expTrades
  = Some (forallb (fun p => rows_agree (fst p) (snd p)) (zip trades (drop i expTrades))).
Proof.
  revert i. induction trades as [| trade rest IH]; intros i Hlen.
  - reflexivity.
  - cbn [length] in Hlen.
    destruct (lookup_lt_is_Some_2 expTrades i ltac:(lia)) as [expTrade Hi].
    rewrite (compareTrades_cons _ _ _ _ _ Hi), (drop_S _ _ _ Hi). cbn.
    destruct (rows_agree trade expTrade); [| reflexivity].
    apply IH. lia.
Qed.

Lemma forallb_zip_Forall2 (trades expTrades : list Trade) :
  Forall2 consistent_rows trades expTrades ->
  forallb (fun p => rows_agree (fst p) (snd p)) (zip trades expTrades) = true.
Proof.
  induction 1 as [| trade expTrade rest expRest Hrow _ IH]; [reflexivity |].
  cbn. rewrite IH, andb_true_r. now apply rows_agree_iff.
Qed.


(** What [Select] returns when the database answers. *)
Lemma Select_fetched (q : TradesQ) (dest rows : list Trade) (s : Q) :
  Err q = None ->
  run_select (sql q) (database s) = inr rows ->
  Select q dest s
  = (None, {| Err := None; sql := sql q |}, rows,
     {| database := database s; executed := executed s ++ [Query (sql q)] |}).
Proof.
  intros Hok Hrun. unfold Select, Q_Select. now rewrite Hok, Hrun.
Qed.

(** [CheckExpTrades] once both sequences are fetched. *)
Lemma CheckExpTrades_fetched (seq : Z) (s : Q) (trades expTrades_ : list Trade) :
  run_select (sql (ForLedger Trades seq "asc")) (database s) = inr trades ->
  run_select (sql (ForLedger expTrades seq "asc")) (database s) = inr expTrades_ ->
  fst (CheckExpTrades seq s)
  = if (length trades =? 0)%nat || (length expTrades_ =? 0)%nat then Some (true, None)
    else if negb (length trades =? length expTrades_)%nat then Some (false, None)
    else match compareTrades 0 trades expTrades_ with
         | Some ok => Some (ok, None)
         | None => None
         end.
Proof.
  intros Hfetch Hexp. unfold CheckExpTrades.
  rewrite (Select_fetched (ForLedger Trades seq "asc") [] trades s eq_refl Hfetch).
  rewrite (Select_fetched (ForLedger expTrades seq "asc") [] expTrades_
             {| database := database s;
                executed := executed s ++ [Query (sql (ForLedger Trades seq "asc"))] |}
             eq_refl Hexp).
  destruct ((length trades =? 0)%nat || (length expTrades_ =? 0)%nat); [reflexivity |].
  destruct (negb (length trades =? length expTrades_)%nat); [reflexivity |].
  destruct (compareTrades 0 trades expTrades_); reflexivity.
Qed.

(** C7. If either fetched sequence is empty, also when the other is not,
    [CheckExpTrades] returns (true, nil). *)
Theorem CheckExpTrades_empty (seq : Z) (s : Q) (trades expTrades_ : list Trade) :
  run_select (sql (ForLedger Trades seq "asc")) (database s) = inr trades ->
  run_select (sql (ForLedger expTrades seq "asc")) (database s) = inr expTrades_ ->
  trades = [] \/ expTrades_ = [] ->
  fst (CheckExpTrades seq s) = Some (true, None).
Proof.
  intros Hfetch Hexp Hempty. rewrite (CheckExpTrades_fetched _ _ _ _ Hfetch Hexp).
  destruct Hempty as [-> | ->]; cbn [length Nat.eqb orb]; [reflexivity |].
  now rewrite orb_true_r.
Qed.

(** C8. If both fetched sequences are non-empty and their lengths differ,
    [CheckExpTrades] returns (false, nil); the rows are not looked at: the
    result is the same for any sequences of these two lengths. *)
Theorem CheckExpTrades_length_mismatch (seq : Z) (s : Q) (trades expTrades_ : list Trade) :
  run_select (sql (ForLedger Trades seq "asc")) (database s) = inr trades ->
  run_select (sql (ForLedger expTrades seq "asc")) (database s) = inr expTrades_ ->
  trades <> [] ->
  expTrades_ <> [] ->
  length trades <> length expTrades_ ->
  fst (CheckExpTrades seq s) = Some (false, None) /\
  (forall (s' : Q) (trades' expTrades' : list Trade),
      run_select (sql (ForLedger Trades seq "asc")) (database s') = inr trades' ->
      run_select (sql (ForLedger expTrades seq "asc")) (database s') = inr expTrades' ->
      length trades' = length trades ->
      length expTrades' = length expTrades_ ->
      fst (CheckExpTrades seq s') = Some (false, None)).
Proof.
  intros Hfetch Hexp Hne Hne' Hlen.
  assert (Hgen : forall (s' : Q) (l l' : list Trade),
             run_select (sql (ForLedger Trades seq "asc")) (database s') = inr l ->
             run_select (sql (ForLedger expTrades seq "asc")) (database s') = inr l' ->
             length l = length trades -> length l' = length expTrades_ ->
             fst (CheckExpTrades seq s') = Some (false, None)).
  { intros s' l l' Hl Hl' El El'. rewrite (CheckExpTrades_fetched _ _ _ _ Hl Hl'), El, El'.
    destruct trades as [| t rest]; [congruence |].
    destruct expTrades_ as [| e expRest]; [congruence |].
    cbn [length Nat.eqb orb] in *.
    destruct (Nat.eqb_spec (length rest) (length expRest)) as [Heq | _]; [| reflexivity].
    exfalso. apply Hlen. now rewrite Heq. }
  split; [now apply (Hgen s trades expTrades_) | exact Hgen].
Qed.


End Properties.

(** ** The properties on the sample backend *)

(** Scenario A: X has id 3 and Y id 7; the trade is recorded with X as base,
    50 against 20, at 2/5, the seller as base.  Scenario B: X has id 9 and Y
    id 4; the trade is recorded with Y as base, 20 against 50, at 5/2, the
    buyer as base. *)
Lemma InsertTrade_canonical_row_witness :
  (fst (InsertTrade (H := Sample.backend) 100 0 "GBUYER" true Sample.buyOffer
          Sample.claim Sample.price_2_5 1570000000000 Sample.scenarioA) = None /\
   exists row : sq.InsertBuilder,
     executed (snd (InsertTrade (H := Sample.backend) 100 0 "GBUYER" true Sample.buyOffer
                      Sample.claim Sample.price_2_5 1570000000000 Sample.scenarioA))
       = [Exec row] /\
     sq.stored row "base_account_id" = Some (sq.VInt 1) /\
     sq.stored row "base_asset_id" = Some (sq.VInt 3) /\
     sq.stored row "base_amount" = Some (sq.VInt 50) /\
     sq.stored row "counter_asset_id" = Some (sq.VInt 7) /\
     sq.stored row "counter_amount" = Some (sq.VInt 20) /\
     sq.stored row "price_n" = Some (sq.VInt 2) /\
     sq.stored row "price_d" = Some (sq.VInt 5) /\
     sq.stored row "base_is_seller" = Some (sq.VBool true)) /\
  (fst (InsertTrade (H := Sample.backend) 100 0 "GBUYER" true Sample.buyOffer
          Sample.claim Sample.price_2_5 1570000000000 Sample.scenarioB) = None /\
   exists row : sq.InsertBuilder,
     executed (snd (InsertTrade (H := Sample.backend) 100 0 "GBUYER" true Sample.buyOffer
                      Sample.claim Sample.price_2_5 1570000000000 Sample.scenarioB))
       = [Exec row] /\
     sq.stored row "base_account_id" = Some (sq.VInt 2) /\
     sq.stored row "base_asset_id" = Some (sq.VInt 4) /\
     sq.stored row "base_amount" = Some (sq.VInt 20) /\
     sq.stored row "counter_asset_id" = Some (sq.VInt 9) /\
     sq.stored row "counter_amount" = Some (sq.VInt 50) /\
     sq.stored row "price_n" = Some (sq.VInt 5) /\
     sq.stored row "price_d" = Some (sq.VInt 2) /\
     sq.stored row "base_is_seller" = Some (sq.VBool false)).
Proof.
  split.
  - destruct (proj2 (InsertTrade_canonical_row (H := Sample.backend) 100 0 "GBUYER" true
                       Sample.buyOffer Sample.claim Sample.price_2_5 1570000000000
                       Sample.scenarioA)
                Sample.scenarioA Sample.scenarioA Sample.scenarioA Sample.scenarioA
                1 2 3 7 eq_refl eq_refl eq_refl eq_refl)
      as (row & Hrun & _ & _ & _ & Hseller & _).
    destruct (Hseller ltac:(lia))
      as (Haccount & Hamount & _ & Hbase & _ & Hcamount & _ & Hcounter & Hn & Hd & Hflag).
    rewrite Hrun. split; [reflexivity |].
    exists row. repeat split; assumption.
  - destruct (proj2 (InsertTrade_canonical_row (H := Sample.backend) 100 0 "GBUYER" true
                       Sample.buyOffer Sample.claim Sample.price_2_5 1570000000000
                       Sample.scenarioB)
                Sample.scenarioB Sample.scenarioB Sample.scenarioB Sample.scenarioB
                1 2 9 4 eq_refl eq_refl eq_refl eq_refl)
      as (row & Hrun & _ & _ & _ & _ & Hbuyer).
    destruct (Hbuyer ltac:(lia))
      as (Haccount & Hamount & _ & Hbase & _ & Hcamount & _ & Hcounter & Hn & Hd & Hflag).
    rewrite Hrun. split; [reflexivity |].
    exists row. repeat split; assumption.
Defined.

(** A row at the first operation id of ledger 2 passes the filter of ledger 1. *)
Lemma ForLedger_admits_next_ledger_start_witness :
  htrd_history_operation_id Sample.next_ledger_start
    = ToInt64 (Backend := Sample.backend)
        {| toid.LedgerSequence := 2; toid.TransactionOrder := 0; toid.OperationOrder := 0 |} /\
  sq.matches (sql (ForLedger (H := Sample.backend) Trades 1 "asc")) Sample.next_ledger_start
    = true.
Proof.
  split; [reflexivity |].
  apply (ForLedger_admits_next_ledger_start (H := Sample.backend) Trades 1 "asc"
           Sample.next_ledger_start).
  - vm_compute. discriminate.
  - reflexivity.
  - reflexivity.
Defined.

(** The cursor "100-1": ascending pages start after (100, 1), descending
    pages before it. *)
Lemma Page_cursor_lexicographic_witness :
  (sq.sel_where (sql (Page (H := Sample.backend) Trades Sample.page_after_100_1))
     = [pageAscending 100 1] /\
   (sq.holds (pageAscending 100 1) (Sample.row 100 2 Sample.noon) = true
      <-> lex_lt (100, 1) (100, 2))) /\
  (sq.sel_where (sql (Page (H := Sample.backend) Trades Sample.page_before_100_1))
     = [pageDescending 100 1] /\
   (sq.holds (pageDescending 100 1) (Sample.row 99 7 Sample.noon) = true
      <-> lex_lt (99, 7) (100, 1))).
Proof.
  split.
  - destruct (Page_cursor_lexicographic (H := Sample.backend) Trades Sample.page_after_100_1
                100 1 eq_refl eq_refl) as [Hasc _].
    destruct (Hasc eq_refl) as [Hwhere Hlex].
    split; [exact Hwhere | exact (Hlex (Sample.row 100 2 Sample.noon))].
  - destruct (Page_cursor_lexicographic (H := Sample.backend) Trades Sample.page_before_100_1
                100 1 eq_refl eq_refl) as [_ Hdesc].
    destruct (Hdesc eq_refl) as [Hwhere Hlex].
    split; [exact Hwhere | exact (Hlex (Sample.row 99 7 Sample.noon))].
Defined.

(** C9, as stated, fails: the cursor "abc" does not parse, yet on a builder
    whose account filter has failed [Page] records no parse error, and
    [Select] returns the error of the account filter. *)
Lemma Page_malformed_cursor_counterexample :
  CursorInt64Pair (Backend := Sample.backend) Sample.malformed_page db2.DefaultPairSep
    = inl (Failure "invalid cursor") /\
  Err (Page (H := Sample.backend) Sample.unknown_account_trades Sample.malformed_page)
    = Some (Failure "sql: no rows in result set") /\
  Err (Page (H := Sample.backend) Sample.unknown_account_trades Sample.malformed_page)
    <> Some (Failure "invalid cursor") /\
  fst (fst (fst (Select (H := Sample.backend)
                   (Page (H := Sample.backend) Sample.unknown_account_trades
                      Sample.malformed_page)
                   [] Sample.scenarioA)))
    = Some (Failure "sql: no rows in result set").
Proof.
  split; [reflexivity |]. split; [reflexivity |]. split; [| reflexivity].
  vm_compute. discriminate.
Qed.

(** On the plain trades query the cursor "abc" is recorded and returned, and
    the session is left as it was. *)
Lemma Page_malformed_cursor_witness :
  Select (H := Sample.backend) (Page (H := Sample.backend) Trades Sample.malformed_page)
    [] Sample.scenarioA
  = (Some (Failure "invalid cursor"),
     Page (H := Sample.backend) Trades Sample.malformed_page, [], Sample.scenarioA) /\
  Select (H := Sample.backend)
    (Page (H := Sample.backend) Sample.unknown_account_trades Sample.malformed_page)
    [] Sample.scenarioA
  = (Some (Failure "sql: no rows in result set"),
     Sample.unknown_account_trades, [], Sample.scenarioA).
Proof.
  split.
  - destruct (Page_malformed_cursor (H := Sample.backend) Trades Sample.malformed_page
                (Failure "invalid cursor") [] Sample.scenarioA eq_refl) as [Hfresh _].
    exact (proj2 (Hfresh eq_refl)).
  - destruct (Page_malformed_cursor (H := Sample.backend) Sample.unknown_account_trades
                Sample.malformed_page (Failure "invalid cursor") [] Sample.scenarioA eq_refl)
      as [_ Hearlier].
    exact (proj2 (Hearlier (Failure "sql: no rows in result set") eq_refl)).
Defined.

(** C10, as stated, fails: the order "sideways" is neither "asc" nor "desc",
    yet with the cursor "abc" [Page] records an error and sets no limit. *)
Lemma Page_unknown_order_counterexample :
  db2.Order Sample.sideways_malformed_page <> "asc" /\
  db2.Order Sample.sideways_malformed_page <> "desc" /\
  Err (Page (H := Sample.backend) Trades Sample.sideways_malformed_page)
    = Some (Failure "invalid cursor") /\
  sq.sel_limit (sql (Page (H := Sample.backend) Trades Sample.sideways_malformed_page))
    = None.
Proof.
  split; [discriminate |]. split; [discriminate |]. split; reflexivity.
Qed.

(** With the cursor "100-1" the order "sideways" leaves the query as it was
    but for the limit. *)
Lemma Page_unknown_order_witness :
  Page (H := Sample.backend) Trades Sample.sideways_page
  = {| Err := None; sql := sq.Limit (sql Trades) 10 |}.
Proof.
  apply (Page_unknown_order (H := Sample.backend) Trades Sample.sideways_page 100 1).
  - reflexivity.
  - reflexivity.
  - discriminate.
  - discriminate.
Defined.

(** One primary row and no candidate row. *)
Lemma CheckExpTrades_empty_witness :
  fst (CheckExpTrades (H := Sample.backend) 1 Sample.empty_candidate) = Some (true, None).
Proof.
  apply (CheckExpTrades_empty (H := Sample.backend) 1 Sample.empty_candidate
           [selectTradeFields Sample.trade_1] []).
  - reflexivity.
  - reflexivity.
  - right. reflexivity.
Defined.

(** Two primary rows against one candidate row. *)
Lemma CheckExpTrades_length_mismatch_witness :
  fst (CheckExpTrades (H := Sample.backend) 1 Sample.two_against_one) = Some (false, None).
Proof.
  apply (CheckExpTrades_length_mismatch (H := Sample.backend) 1 Sample.two_against_one
           [selectTradeFields Sample.trade_1; selectTradeFields Sample.trade_2]
           [selectTradeFields Sample.trade_1]).
  - reflexivity.
  - reflexivity.
  - discriminate.
  - discriminate.
  - discriminate.
Defined.


(** * Further properties of the code *)

Section Further.

Context `{Backend}.

(** ** [InsertTrade] *)

(** X1. [InsertTrade] stops at the first step that fails.  When a lookup
    fails (seller account, buyer account, sold asset, bought asset, in this
    order) it returns the error of that lookup wrapped with the message of
    that lookup, and the session is as that lookup left it: no later lookup
    is made and no INSERT is executed.  When the four ids resolve, it
    executes the INSERT of [insertedValues] and returns the error of the
    database wrapped as "failed to exec sql", or nil if there is none. *)
Theorem InsertTrade_outcomes
    (opid order : Z) (buyer : xdr.AccountId) (buyOfferExists : bool)
    (buyOffer : xdr.OfferEntry) (trade : xdr.ClaimOfferAtom) (sellPrice : xdr.Price)
    (ledgerClosedAt : Z) (s : Q) :
  (forall (cause : error) (s1 : Q),
      Q_GetCreateAccountID (xdr.SellerId trade) s = (inl cause, s1) ->
      InsertTrade opid order buyer buyOfferExists buyOffer trade sellPrice ledgerClosedAt s
        = (Some (Wrap cause "failed to load seller account id"), s1)) /\
  (forall (sellerAccountId : Z) (cause : error) (s1 s2 : Q),
      Q_GetCreateAccountID (xdr.SellerId trade) s = (inr sellerAccountId, s1) ->
      Q_GetCreateAccountID buyer s1 = (inl cause, s2) ->
      InsertTrade opid order buyer buyOfferExists buyOffer trade sellPrice ledgerClosedAt s
        = (Some (Wrap cause "failed to load buyer account id"), s2)) /\
  (forall (sellerAccountId buyerAccountId : Z) (cause : error) (s1 s2 s3 : Q),
      Q_GetCreateAccountID (xdr.SellerId trade) s = (inr sellerAccountId, s1) ->
      Q_GetCreateAccountID buyer s1 = (inr buyerAccountId, s2) ->
      Q_GetCreateAssetID (xdr.AssetSold trade) s2 = (inl cause, s3) ->
      InsertTrade opid order buyer buyOfferExists buyOffer trade sellPrice ledgerClosedAt s
        = (Some (Wrap cause "failed to get sold asset id"), s3)) /\
  (forall (sellerAccountId buyerAccountId soldAssetId : Z) (cause : error) (s1 s2 s3 s4 : Q),
      Q_GetCreateAccountID (xdr.SellerId trade) s = (inr sellerAccountId, s1) ->
      Q_GetCreateAccountID buyer s1 = (inr buyerAccountId, s2) ->
      Q_GetCreateAssetID (xdr.AssetSold trade) s2 = (inr soldAssetId, s3) ->
      Q_GetCreateAssetID (xdr.AssetBought trade) s3 = (inl cause, s4) ->
      InsertTrade opid order buyer buyOfferExists buyOffer trade sellPrice ledgerClosedAt s
        = (Some (Wrap cause "failed to get bought asset id"), s4)) /\
  (forall (sellerAccountId buyerAccountId soldAssetId boughtAssetId : Z) (s1 s2 s3 s4 : Q),
      Q_GetCreateAccountID (xdr.SellerId trade) s = (inr sellerAccountId, s1) ->
      Q_GetCreateAccountID buyer s1 = (inr buyerAccountId, s2) ->
      Q_GetCreateAssetID (xdr.AssetSold trade) s2 = (inr soldAssetId, s3) ->
      Q_GetCreateAssetID (xdr.AssetBought trade) s3 = (inr boughtAssetId, s4) ->
      let row := sq.Values tradesInsert
                   (insertedValues opid order (ToTime ledgerClosedAt) trade sellPrice
                      (sellOfferIdOf trade) (buyOfferIdOf opid buyOfferExists buyOffer)
                      sellerAccountId buyerAccountId soldAssetId boughtAssetId) in
      (forall (cause : error) (s' : Q),
          Q_Exec row s4 = (Some cause, s') ->
          InsertTrade opid order buyer buyOfferExists buyOffer trade sellPrice ledgerClosedAt s
            = (Some (Wrap cause "failed to exec sql"), s')) /\
      (forall s' : Q,
          Q_Exec row s4 = (None, s') ->
          InsertTrade opid order buyer buyOfferExists buyOffer trade sellPrice ledgerClosedAt s
            = (None, s')) /\
      executed (snd (InsertTrade opid order buyer buyOfferExists buyOffer trade sellPrice
                       ledgerClosedAt s))
        = executed s ++ [Exec row]).
Proof.
  split; [| split; [| split; [| split]]].
  - intros cause s1 E1. unfold InsertTrade. now rewrite E1.
  - intros seller cause s1 s2 E1 E2. unfold InsertTrade. now rewrite E1, E2.
  - intros seller buyerId cause s1 s2 s3 E1 E2 E3. unfold InsertTrade.
    now rewrite E1, E2, E3.
  - intros seller buyerId sold cause s1 s2 s3 s4 E1 E2 E3 E4. unfold InsertTrade.
    now rewrite E1, E2, E3, E4.
  - intros seller buyerId sold bought s1 s2 s3 s4 E1 E2 E3 E4 row.
    rewrite (InsertTrade_resolved _ _ _ _ _ _ _ _ _ _ _ _ _ _ _ _ _ E1 E2 E3 E4).
    fold row. split; [| split].
    + intros cause s' Hexec. now rewrite Hexec.
    + intros s' Hexec. now rewrite Hexec.
    + pose proof (Q_Exec_outcome row s4) as Hexec.
      destruct (Q_Exec row s4) as [[e5 |] s5]; cbn in Hexec |- *; rewrite Hexec;
        f_equal;
        rewrite (Q_GetCreateAssetID_executed _ _ _ _ E4),
          (Q_GetCreateAssetID_executed _ _ _ _ E3),
          (Q_GetCreateAccountID_executed _ _ _ _ E2);
        exact (Q_GetCreateAccountID_executed _ _ _ _ E1).
Qed.

(** X2. Whenever the four ids are resolved, the INSERT that [InsertTrade]
    executes stores the smaller of the two asset ids as base asset and the
    larger as counter asset, and [base_is_seller] is true exactly when the
    sold asset's id is strictly less than the bought asset's id; so for equal
    ids the buyer is stored as base.  The price is stored as given when
    [base_is_seller] is true and with numerator and denominator exchanged
    when it is false. *)
Theorem InsertTrade_base_is_smaller_id
    (opid order : Z) (buyer : xdr.AccountId) (buyOfferExists : bool)
    (buyOffer : xdr.OfferEntry) (trade : xdr.ClaimOfferAtom) (sellPrice : xdr.Price)
    (ledgerClosedAt : Z) (s s1 s2 s3 s4 : Q)
    (sellerAccountId buyerAccountId soldAssetId boughtAssetId : Z) :
  Q_GetCreateAccountID (xdr.SellerId trade) s = (inr sellerAccountId, s1) ->
  Q_GetCreateAccountID buyer s1 = (inr buyerAccountId, s2) ->
  Q_GetCreateAssetID (xdr.AssetSold trade) s2 = (inr soldAssetId, s3) ->
  Q_GetCreateAssetID (xdr.AssetBought trade) s3 = (inr boughtAssetId, s4) ->
  exists row : sq.InsertBuilder,
    executed (snd (InsertTrade opid order buyer buyOfferExists buyOffer trade sellPrice
                     ledgerClosedAt s))
      = executed s ++ [Exec row] /\
    stored_int row "base_asset_id" = Some (Z.min soldAssetId boughtAssetId) /\
    stored_int row "counter_asset_id" = Some (Z.max soldAssetId boughtAssetId) /\
    stored_bool row "base_is_seller" = Some (soldAssetId <? boughtAssetId) /\
    stored_int row "base_account_id"
      = Some (if soldAssetId <? boughtAssetId then sellerAccountId else buyerAccountId) /\
    stored_int row "price_n"
      = Some (if soldAssetId <? boughtAssetId then xdr.N sellPrice else xdr.D sellPrice) /\
    stored_int row "price_d"
      = Some (if soldAssetId <? boughtAssetId then xdr.D sellPrice else xdr.N sellPrice).
Proof.
  intros E1 E2 E3 E4.
  rewrite (InsertTrade_resolved _ _ _ _ _ _ _ _ _ _ _ _ _ _ _ _ _ E1 E2 E3 E4).
  match goal with |- context [Q_Exec ?b s4] => set (row := b) end.
  exists row. split.
  - pose proof (Q_Exec_outcome row s4) as Hexec.
    destruct (Q_Exec row s4) as [[e5 |] s5]; cbn in Hexec |- *; rewrite Hexec;
      f_equal;
      rewrite (Q_GetCreateAssetID_executed _ _ _ _ E4),
        (Q_GetCreateAssetID_executed _ _ _ _ E3),
        (Q_GetCreateAccountID_executed _ _ _ _ E2);
      exact (Q_GetCreateAccountID_executed _ _ _ _ E1).
  - subst row. unfold insertedValues.
    destruct (Z.ltb_spec soldAssetId boughtAssetId) as [Hlt | Hge].
    + rewrite Z.min_l, Z.max_r by lia. repeat split.
    + rewrite Z.min_r, Z.max_l by lia. repeat split.
Qed.

(** ** Queries by asset pair *)

Lemma matches_forAssetPair (q : TradesQ) (baseAssetId counterAssetId : Z) (j : JoinedRow) :
  sq.matches (sql (forAssetPair q baseAssetId counterAssetId)) j
  = sq.matches (sql q) j
    && ((htrd_base_asset_id j =? baseAssetId) && (htrd_counter_asset_id j =? counterAssetId)).
Proof. unfold forAssetPair. cbn [sql]. now rewrite matches_Where. Qed.

Lemma TradesForAssetPair_lt (baseAssetId counterAssetId : Z) :
  baseAssetId < counterAssetId ->
  TradesForAssetPair baseAssetId counterAssetId
  = forAssetPair Trades baseAssetId counterAssetId.
Proof.
  intros Hlt. unfold TradesForAssetPair. now rewrite (getCanonicalAssetOrder_lt _ _ Hlt).
Qed.

Lemma TradesForAssetPair_ge (baseAssetId counterAssetId : Z) :
  counterAssetId <= baseAssetId ->
  TradesForAssetPair baseAssetId counterAssetId
  = forAssetPair ReverseTrades counterAssetId baseAssetId.
Proof.
  intros Hge. unfold TradesForAssetPair. now rewrite (getCanonicalAssetOrder_ge _ _ Hge).
Qed.

(** X3. A recorded trade read back: when the four ids are resolved and the
    two asset ids differ, the row that the INSERT of [InsertTrade] adds,
    joined with the accounts and assets, is found by
    [TradesForAssetPair sold bought] and read as the trade seen by its
    seller (seller, amount sold and sold asset as base, the sell price as
    given, [base_is_seller] true), whichever way the pair was stored; and it
    is found by [TradesForAssetPair bought sold] and read the other way
    round, price inverted. *)
Theorem InsertTrade_read_back
    (accounts : Z -> string) (assets : Z -> xdr.Asset)
    (opid order : Z) (buyer : xdr.AccountId) (buyOfferExists : bool)
    (buyOffer : xdr.OfferEntry) (trade : xdr.ClaimOfferAtom) (sellPrice : xdr.Price)
    (ledgerClosedAt : Z) (s s1 s2 s3 s4 : Q)
    (sellerAccountId buyerAccountId soldAssetId boughtAssetId : Z) :
  Q_GetCreateAccountID (xdr.SellerId trade) s = (inr sellerAccountId, s1) ->
  Q_GetCreateAccountID buyer s1 = (inr buyerAccountId, s2) ->
  Q_GetCreateAssetID (xdr.AssetSold trade) s2 = (inr soldAssetId, s3) ->
  Q_GetCreateAssetID (xdr.AssetBought trade) s3 = (inr boughtAssetId, s4) ->
  soldAssetId <> boughtAssetId ->
  exists (row : sq.InsertBuilder) (j : JoinedRow),
    executed (snd (InsertTrade opid order buyer buyOfferExists buyOffer trade sellPrice
                     ledgerClosedAt s))
      = executed s ++ [Exec row] /\
    joinedRow accounts assets row = Some j /\
    sq.matches (sql (TradesForAssetPair soldAssetId boughtAssetId)) j = true /\
    sq.sel_columns (sql (TradesForAssetPair soldAssetId boughtAssetId)) j
      = sellerView opid order (ToTime ledgerClosedAt) trade sellPrice
          (sellOfferIdOf trade) (buyOfferIdOf opid buyOfferExists buyOffer)
          (accounts sellerAccountId) (accounts buyerAccountId)
          (assets soldAssetId) (assets boughtAssetId) /\
    sq.matches (sql (TradesForAssetPair boughtAssetId soldAssetId)) j = true /\
    sq.sel_columns (sql (TradesForAssetPair boughtAssetId soldAssetId)) j
      = reverseProjection
          (sellerView opid order (ToTime ledgerClosedAt) trade sellPrice
             (sellOfferIdOf trade) (buyOfferIdOf opid buyOfferExists buyOffer)
             (accounts sellerAccountId) (accounts buyerAccountId)
             (assets soldAssetId) (assets boughtAssetId)).
Proof.
  intros E1 E2 E3 E4 Hne.
  rewrite (InsertTrade_resolved _ _ _ _ _ _ _ _ _ _ _ _ _ _ _ _ _ E1 E2 E3 E4).
  match goal with |- context [Q_Exec ?b s4] => set (row := b) end.
  assert (Hlog : executed (snd match Q_Exec row s4 with
                               | (Some err, s') => (Some (Wrap err "failed to exec sql"), s')
                               | (None, s') => (None, s')
                               end) = executed s ++ [Exec row]).
  { pose proof (Q_Exec_outcome row s4) as Hexec.
    destruct (Q_Exec row s4) as [[e5 |] s5]; cbn in Hexec |- *; rewrite Hexec;
      f_equal;
      rewrite (Q_GetCreateAssetID_executed _ _ _ _ E4),
        (Q_GetCreateAssetID_executed _ _ _ _ E3),
        (Q_GetCreateAccountID_executed _ _ _ _ E2);
      exact (Q_GetCreateAccountID_executed _ _ _ _ E1). }
  exists row. subst row. unfold insertedValues in *.
  destruct (Z.ltb_spec soldAssetId boughtAssetId) as [Hlt | Hge].
  - eexists. split; [exact Hlog |]. split; [reflexivity |].
    rewrite (TradesForAssetPair_lt _ _ Hlt), (TradesForAssetPair_ge boughtAssetId soldAssetId)
      by lia.
    rewrite !matches_forAssetPair. cbn. rewrite !Z.eqb_refl.
    repeat split.
  - eexists. split; [exact Hlog |]. split; [reflexivity |].
    rewrite (TradesForAssetPair_ge soldAssetId boughtAssetId),
      (TradesForAssetPair_lt boughtAssetId soldAssetId) by lia.
    rewrite !matches_forAssetPair. cbn. rewrite !Z.eqb_refl.
    repeat split.
Qed.

Lemma selectTradeFields_reverse (j : JoinedRow) :
  selectTradeFields j = reverseProjection (selectReverseTradeFields j).
Proof.
  unfold reverseProjection, swapBaseCounter, selectReverseTradeFields, selectTradeFields.
  cbn. now rewrite negb_involutive.
Qed.

(** X4. For two different asset ids, [TradesForAssetPair a b] and
    [TradesForAssetPair b a] select the same stored rows, each with the
    smaller id as base asset, and return them in opposite orientation: each
    is the reverse projection of the other. *)
Theorem TradesForAssetPair_orientation (a b : Z) (j : JoinedRow) :
  a <> b ->
  sq.matches (sql (TradesForAssetPair a b)) j = sq.matches (sql (TradesForAssetPair b a)) j /\
  sq.matches (sql (TradesForAssetPair a b)) j
    = (htrd_base_asset_id j =? Z.min a b) && (htrd_counter_asset_id j =? Z.max a b) /\
  sq.sel_columns (sql (TradesForAssetPair a b)) j
    = reverseProjection (sq.sel_columns (sql (TradesForAssetPair b a)) j) /\
  BaseIsSeller (sq.sel_columns (sql (TradesForAssetPair a b)) j)
    = (if a <? b then htrd_base_is_seller j else negb (htrd_base_is_seller j)).
Proof.
  intros Hne. destruct (Z.ltb_spec a b) as [Hlt | Hge].
  - rewrite (TradesForAssetPair_lt _ _ Hlt), (TradesForAssetPair_ge b a) by lia.
    rewrite !matches_forAssetPair, Z.min_l, Z.max_r by lia.
    split; [reflexivity |]. split; [reflexivity |].
    split; [apply selectTradeFields_reverse | reflexivity].
  - rewrite (TradesForAssetPair_ge a b), (TradesForAssetPair_lt b a) by lia.
    rewrite !matches_forAssetPair, Z.min_r, Z.max_l by lia.
    split; [reflexivity |]. split; [reflexivity |].
    split; reflexivity.
Qed.

(** ** Filters *)

Lemma narrows_refl (q : sq.SelectBuilder) : narrows q q.
Proof. repeat split. auto. Qed.

Lemma narrows_trans (q'' q' q : sq.SelectBuilder) :
  narrows q'' q' -> narrows q' q -> narrows q'' q.
Proof.
  intros (Hc1 & Hf1 & Hj1 & Hm1) (Hc2 & Hf2 & Hj2 & Hm2).
  repeat split; [congruence | congruence | congruence | auto].
Qed.

Lemma narrows_Where (q : sq.SelectBuilder) (c : sq.cond) : narrows (sq.Where q c) q.
Proof.
  repeat split. intros j. rewrite matches_Where. intros [Hq _]%andb_true_iff. exact Hq.
Qed.

Lemma narrows_OrderBy (q : sq.SelectBuilder) (clause : string) : narrows (sq.OrderBy q clause) q.
Proof. repeat split. auto. Qed.

Lemma narrows_Limit (q : sq.SelectBuilder) (n : Z) : narrows (sq.Limit q n) q.
Proof. repeat split. auto. Qed.

(** X5. Every filter and [Page] only narrows a query: the builder it
    returns has the select list, the table and the joins of the builder it
    was given, and every row that matches it matched before; this holds on
    all paths, also when the account lookup or the cursor fails and for any
    order string. *)
Theorem filters_only_narrow
    (q : TradesQ) (id baseAssetId counterAssetId sequence : Z) (order aid : string)
    (page : db2.PageQuery) (s : Q) :
  narrows (sql (ForOffer q id)) (sql q) /\
  narrows (sql (forAssetPair q baseAssetId counterAssetId)) (sql q) /\
  narrows (sql (ForLedger q sequence order)) (sql q) /\
  narrows (sql (ForAccount q aid s)) (sql q) /\
  narrows (sql (Page q page)) (sql q).
Proof.
  split; [apply narrows_Where |]. split; [apply narrows_Where |].
  split; [eapply narrows_trans; [apply narrows_OrderBy | apply narrows_Where] |].
  split.
  - unfold ForAccount. destruct (AccountByAddress aid (database s));
      [apply narrows_refl | apply narrows_Where].
  - unfold Page. destruct (Err q); [apply narrows_refl |].
    destruct (CursorInt64Pair page db2.DefaultPairSep) as [err | [op idx]];
      [apply narrows_refl |].
    cbn [sql]. eapply narrows_trans; [apply narrows_Limit |].
    destruct (String.eqb (db2.Order page) "asc");
      [eapply narrows_trans; [apply narrows_OrderBy | apply narrows_Where] |].
    destruct (String.eqb (db2.Order page) "desc");
      [eapply narrows_trans; [apply narrows_OrderBy | apply narrows_Where] |].
    apply narrows_refl.
Qed.

(** X6. [ForOffer] keeps exactly the rows that have the offer id on their
    base or counter side, and the trade returned has it on one of its two
    sides under the plain and under the reverse select list alike. *)
Theorem ForOffer_either_side (q : TradesQ) (id : Z) (j : JoinedRow) :
  sq.matches (sql (ForOffer q id)) j
    = sq.matches (sql q) j && has_offer id (selectTradeFields j) /\
  sq.matches (sql (ForOffer q id)) j
    = sq.matches (sql q) j && has_offer id (selectReverseTradeFields j).
Proof.
  unfold ForOffer. cbn [sql]. rewrite matches_Where. unfold has_offer. cbn.
  split; [reflexivity |]. f_equal. apply orb_comm.
Qed.

(** X7. When the account lookup fails, [ForAccount] records the error and
    leaves the query as it was, and a later [Page] and [Select] return that
    error without parsing the cursor and without a statement being
    executed. *)
Theorem ForAccount_lookup_failure
    (q : TradesQ) (aid : string) (s : Q) (err : error) :
  AccountByAddress aid (database s) = inl err ->
  ForAccount q aid s = {| Err := Some err; sql := sql q |} /\
  forall (page : db2.PageQuery) (dest : list Trade) (s' : Q),
    Select (Page (ForAccount q aid s) page) dest s'
    = (Some err, ForAccount q aid s, dest, s').
Proof.
  intros Hlookup.
  assert (Hq : ForAccount q aid s = {| Err := Some err; sql := sql q |}).
  { unfold ForAccount. now rewrite Hlookup. }
  split; [exact Hq |]. intros page dest s'. rewrite Hq. reflexivity.
Qed.

(** X8. [ForAccount] assigns the outcome of the lookup to the error of the
    builder without looking at it: whatever error the builder held (a
    malformed cursor recorded by [Page], say), after a successful lookup it
    holds none, the account condition is added, and [Select] executes the
    query. *)
Theorem ForAccount_clears_earlier_error
    (q : TradesQ) (aid : string) (s : Q) (account_ID : Z) (dest : list Trade) :
  AccountByAddress aid (database s) = inr account_ID ->
  Err (ForAccount q aid s) = None /\
  sq.sel_where (sql (ForAccount q aid s))
    = sq.sel_where (sql q)
      ++ [sq.Or (sq.Cmp sq.base_account_id sq.EQ account_ID)
                (sq.Cmp sq.counter_account_id sq.EQ account_ID)] /\
  executed (snd (Select (ForAccount q aid s) dest s))
    = executed s ++ [Query (sql (ForAccount q aid s))].
Proof.
  intros Hlookup. unfold ForAccount. rewrite Hlookup. cbn [Err sql].
  split; [reflexivity |]. split; [reflexivity |].
  unfold Select, Q_Select. cbn [Err sql].
  destruct (run_select _ (database s)); reflexivity.
Qed.

(** X9. When the database fails a SELECT, [Select] has handed it that one
    statement, returns its error and records it in the builder; what [dest]
    then holds is left to [q.parent.Select].  Every later [Select] on that
    builder returns the same error, does not touch its [dest] and hands
    nothing to the database. *)
Theorem Select_error_is_kept
    (q : TradesQ) (dest : list Trade) (s : Q) (err : error) :
  Err q = None ->
  run_select (sql q) (database s) = inl err ->
  Select q dest s
    = (Some err, {| Err := Some err; sql := sql q |},
       dest_on_failure (sql q) (database s) dest,
       {| database := database s; executed := executed s ++ [Query (sql q)] |}) /\
  forall (dest' : list Trade) (s' : Q),
    Select {| Err := Some err; sql := sql q |} dest' s'
    = (Some err, {| Err := Some err; sql := sql q |}, dest', s').
Proof.
  intros Hok Hrun. split.
  - unfold Select, Q_Select. now rewrite Hok, Hrun.
  - intros dest' s'. reflexivity.
Qed.

(** ** Paging *)

(** X10. The ascending and the descending cursor condition of [Page] split
    the rows around the cursor: every row satisfies the ascending condition,
    or the descending one, or lies at the cursor (op, idx) itself, and never
    two of the three. *)
Theorem Page_conditions_partition (op idx : Z) (j : JoinedRow) :
  (sq.holds (pageAscending op idx) j = true \/
   sq.holds (pageDescending op idx) j = true \/
   row_key j = (op, idx)) /\
  ~ (sq.holds (pageAscending op idx) j = true /\ sq.holds (pageDescending op idx) j = true) /\
  ~ (sq.holds (pageAscending op idx) j = true /\ row_key j = (op, idx)) /\
  ~ (sq.holds (pageDescending op idx) j = true /\ row_key j = (op, idx)).
Proof.
  rewrite pageAscending_lex, pageDescending_lex.
  unfold lex_lt, row_key. cbn [fst snd].
  split; [| split; [| split]].
  - destruct (Z.lt_trichotomy (htrd_history_operation_id j) op) as [? | [Hop | ?]];
      [right; left; lia | | left; lia].
    destruct (Z.lt_trichotomy (htrd_order j) idx) as [? | [Hidx | ?]];
      [right; left; lia | | left; lia].
    right. right. now rewrite Hop, Hidx.
  - lia.
  - intros [Hasc [= Hop Hidx]]. lia.
  - intros [Hdesc [= Hop Hidx]]. lia.
Qed.


(** ** The consistency check, further *)

Lemma consistent_rows_refl (trade : Trade) : consistent_rows trade trade.
Proof. split; [reflexivity |]. left. repeat split. Qed.

Lemma consistent_rows_sym (trade expTrade : Trade) :
  consistent_rows trade expTrade -> consistent_rows expTrade trade.
Proof.
  intros [Htime Hfields]. split; [now symmetry |].
  destruct Hfields as [Hs | Hm]; [left | right].
  - destruct Hs as (? & ? & ? & ? & ? & ? & ? & ? & ? & ? & ? & ? & ? & ? & ? & ? & ? & ?).
    repeat split; now symmetry.
  - destruct Hm as (? & ? & ? & ? & ? & ? & ? & ? & ? & ? & ? & ? & ? & ? & ? & Hflag & ? & ?).
    repeat split; try (now symmetry).
    rewrite Hflag. now rewrite negb_involutive.
Qed.

Lemma rows_agree_sym (trade expTrade : Trade) :
  rows_agree trade expTrade = rows_agree expTrade trade.
Proof.
  apply eq_true_iff_eq. rewrite !rows_agree_iff. split; apply consistent_rows_sym.
Qed.

Lemma forallb_zip_sym (l k : list Trade) :
  forallb (fun p => rows_agree (fst p) (snd p)) (zip l k)
  = forallb (fun p => rows_agree (fst p) (snd p)) (zip k l).
Proof.
  revert k. induction l as [| t l IH]; intros [| e k]; try reflexivity.
  cbn. now rewrite rows_agree_sym, IH.
Qed.

Lemma forallb_zip_inv (l k : list Trade) :
  length l = length k ->
  forallb (fun p => rows_agree (fst p) (snd p)) (zip l k) = true ->
  Forall2 consistent_rows l k.
Proof.
  revert k. induction l as [| t l IH]; intros [| e k] Hlen Hall; try discriminate.
  - constructor.
  - cbn in Hall. apply andb_true_iff in Hall as [Hrow Hall].
    constructor; [now apply rows_agree_iff | apply IH; [now injection Hlen | exact Hall]].
Qed.

(** [CheckExpTrades] in terms of the answers of the database. *)
Lemma CheckExpTrades_unfold (seq : Z) (s : Q) :
  CheckExpTrades seq s
  = match run_select (sql (ForLedger Trades seq "asc")) (database s) with
    | inl err =>
        (Some (false, Some err),
         {| database := database s;
            executed := executed s ++ [Query (sql (ForLedger Trades seq "asc"))] |})
    | inr trades =>
        let s2 := {| database := database s;
                     executed := (executed s ++ [Query (sql (ForLedger Trades seq "asc"))])
                                 ++ [Query (sql (ForLedger expTrades seq "asc"))] |} in
        match run_select (sql (ForLedger expTrades seq "asc")) (database s) with
        | inl err => (Some (false, Some err), s2)
        | inr expTrades_ =>
            if (length trades =? 0)%nat || (length expTrades_ =? 0)%nat
            then (Some (true, None), s2)
            else if negb (length trades =? length expTrades_)%nat
            then (Some (false, None), s2)
            else match compareTrades 0 trades expTrades_ with
                 | Some ok => (Some (ok, None), s2)
                 | None => (None, s2)
                 end
        end
    end.
Proof.
  unfold CheckExpTrades, Select, Q_Select. cbn [Err ForLedger Trades expTrades].
  destruct (run_select (sql (ForLedger Trades seq "asc")) (database s)) as [err | trades];
    [reflexivity |].
  cbn [database executed].
  destruct (run_select (sql (ForLedger expTrades seq "asc")) (database s))
    as [err | expTrades_]; reflexivity.
Qed.

(** X12. [CheckExpTrades] always returns: the index [expTrades[i]] of its
    loop is never out of range, because the loop is reached only with two
    sequences of the same length.  It changes nothing in the database. *)
Theorem CheckExpTrades_never_panics (seq : Z) (s : Q) :
  (exists (consistent : bool) (err : option error),
      fst (CheckExpTrades seq s) = Some (consistent, err)) /\
  database (snd (CheckExpTrades seq s)) = database s.
Proof.
  rewrite CheckExpTrades_unfold.
  destruct (run_select (sql (ForLedger Trades seq "asc")) (database s)) as [err | trades];
    [split; [now exists false, (Some err) | reflexivity] |].
  cbn zeta.
  destruct (run_select (sql (ForLedger expTrades seq "asc")) (database s))
    as [err | expTrades_]; [split; [now exists false, (Some err) | reflexivity] |].
  destruct ((length trades =? 0)%nat || (length expTrades_ =? 0)%nat);
    [split; [now exists true, None | reflexivity] |].
  destruct (Nat.eqb_spec (length trades) (length expTrades_)) as [Hlen | _];
    [| split; [now exists false, None | reflexivity]].
  cbn [negb]. rewrite (compareTrades_spec trades expTrades_ 0) by lia.
  split; [eexists _, None; reflexivity | reflexivity].
Qed.

(** X13. When the SELECT on [history_trades] fails, [CheckExpTrades]
    returns (false, err) with the error of the database, and the SELECT on
    [exp_history_trades] is not executed. *)
Theorem CheckExpTrades_first_fetch_fails (seq : Z) (s : Q) (err : error) :
  run_select (sql (ForLedger Trades seq "asc")) (database s) = inl err ->
  fst (CheckExpTrades seq s) = Some (false, Some err) /\
  executed (snd (CheckExpTrades seq s))
    = executed s ++ [Query (sql (ForLedger Trades seq "asc"))].
Proof.
  intros Hfetch. rewrite CheckExpTrades_unfold, Hfetch. split; reflexivity.
Qed.

(** X14. When the SELECT on [exp_history_trades] fails, [CheckExpTrades]
    returns (false, err) whatever the first SELECT returned, also when it
    returned no row. *)
Theorem CheckExpTrades_second_fetch_fails
    (seq : Z) (s : Q) (trades : list Trade) (err : error) :
  run_select (sql (ForLedger Trades seq "asc")) (database s) = inr trades ->
  run_select (sql (ForLedger expTrades seq "asc")) (database s) = inl err ->
  fst (CheckExpTrades seq s) = Some (false, Some err) /\
  executed (snd (CheckExpTrades seq s))
    = executed s ++ [Query (sql (ForLedger Trades seq "asc"));
                     Query (sql (ForLedger expTrades seq "asc"))].
Proof.
  intros Hfetch Hexp. rewrite CheckExpTrades_unfold, Hfetch. cbn zeta. rewrite Hexp.
  split; [reflexivity |]. cbn [snd executed]. now rewrite <- app_assoc.
Qed.

(** X15. For two fetched sequences that are not empty and have the same
    length, [CheckExpTrades] returns (true, nil) if and only if at every
    position the close times are equal to the second and the rows are equal
    or mirrored; otherwise it returns (false, nil). *)
Theorem CheckExpTrades_true_iff (seq : Z) (s : Q) (trades expTrades_ : list Trade) :
  run_select (sql (ForLedger Trades seq "asc")) (database s) = inr trades ->
  run_select (sql (ForLedger expTrades seq "asc")) (database s) = inr expTrades_ ->
  trades <> [] ->
  length trades = length expTrades_ ->
  (fst (CheckExpTrades seq s) = Some (true, None)
   <-> Forall2 consistent_rows trades expTrades_) /\
  (fst (CheckExpTrades seq s) = Some (true, None) \/
   fst (CheckExpTrades seq s) = Some (false, None)).
Proof.
  intros Hfetch Hexp Hne Hlen. rewrite (CheckExpTrades_fetched _ _ _ _ Hfetch Hexp).
  rewrite (compareTrades_spec trades expTrades_ 0 ltac:(lia)), drop_0.
  rewrite <- Hlen, Nat.eqb_refl, orb_diag. cbn [negb].
  destruct trades as [| t rest]; [congruence |]. cbn [length Nat.eqb].
  destruct (forallb (fun p => rows_agree (fst p) (snd p)) (zip (t :: rest) expTrades_))
    eqn:Hall.
  - split; [| now left]. split; [| reflexivity].
    intros _. now apply forallb_zip_inv.
  - split; [| now right]. split; [discriminate |].
    intros Hrows. rewrite (forallb_zip_Forall2 _ _ Hrows) in Hall. discriminate.
Qed.

(** X16. The verdict does not depend on which of the two tables is the
    primary one: if one session fetches two sequences and another fetches
    the same two the other way round, [CheckExpTrades] returns the same in
    both. *)
Theorem CheckExpTrades_symmetric (seq : Z) (s s' : Q) (l k : list Trade) :
  run_select (sql (ForLedger Trades seq "asc")) (database s) = inr l ->
  run_select (sql (ForLedger expTrades seq "asc")) (database s) = inr k ->
  run_select (sql (ForLedger Trades seq "asc")) (database s') = inr k ->
  run_select (sql (ForLedger expTrades seq "asc")) (database s') = inr l ->
  fst (CheckExpTrades seq s) = fst (CheckExpTrades seq s').
Proof.
  intros Hl Hk Hk' Hl'.
  rewrite (CheckExpTrades_fetched _ _ _ _ Hl Hk), (CheckExpTrades_fetched _ _ _ _ Hk' Hl').
  destruct (Nat.eqb_spec (length l) 0), (Nat.eqb_spec (length k) 0); cbn [orb];
    try reflexivity.
  destruct (Nat.eqb_spec (length l) (length k)) as [Hlen | Hlen],
           (Nat.eqb_spec (length k) (length l)) as [Hlen' | Hlen'];
    try congruence; cbn [negb]; [| reflexivity].
  rewrite (compareTrades_spec l k 0), (compareTrades_spec k l 0), !drop_0 by lia.
  now rewrite forallb_zip_sym.
Qed.

(** X17. When both tables return the same sequence of rows, whatever the
    rows, [CheckExpTrades] returns (true, nil). *)
Theorem CheckExpTrades_same_rows (seq : Z) (s : Q) (trades : list Trade) :
  run_select (sql (ForLedger Trades seq "asc")) (database s) = inr trades ->
  run_select (sql (ForLedger expTrades seq "asc")) (database s) = inr trades ->
  fst (CheckExpTrades seq s) = Some (true, None).
Proof.
  intros Hfetch Hexp. rewrite (CheckExpTrades_fetched _ _ _ _ Hfetch Hexp).
  rewrite (compareTrades_spec trades trades 0 ltac:(lia)), drop_0.
  rewrite Nat.eqb_refl, orb_diag. cbn [negb].
  rewrite forallb_zip_Forall2; [now destruct (length trades =? 0)%nat |].
  induction trades as [| t rest IH]; constructor; [apply consistent_rows_refl |].
  clear. induction rest; constructor; [apply consistent_rows_refl | assumption].
Qed.

(** ** Paging tokens and prices *)

Lemma append_cons (a : Ascii.ascii) (s t : string) : String a s +:+ t = String a (s +:+ t).
Proof. reflexivity. Qed.

Lemma append_assoc (s t u : string) : (s +:+ t) +:+ u = s +:+ (t +:+ u).
Proof.
  induction s as [| a s IH]; [reflexivity |]. rewrite !append_cons. now rewrite IH.
Qed.

Lemma dashless_append (s t : string) : dashless (s +:+ t) = dashless s && dashless t.
Proof.
  induction s as [| a s IH]; [reflexivity |]. rewrite append_cons. cbn [dashless].
  now rewrite IH, andb_assoc.
Qed.

Lemma pretty_N_char_dashless (x : N) : Ascii.eqb (pretty_N_char x) "-"%char = false.
Proof. unfold pretty_N_char. repeat case_match; reflexivity. Qed.

(** The decimal digits of a number hold no dash. *)
Lemma pretty_N_go_digits (x : N) (s : string) :
  exists d : string,
    pretty_N_go x s = d +:+ s /\ dashless d = true /\ ((0 < x)%N -> d <> EmptyString).
Proof.
  revert s. induction (N.lt_wf_0 x) as [x _ IH]. intros s.
  destruct (N.eq_0_gt_0_cases x) as [-> | Hpos].
  - exists EmptyString. rewrite pretty_N_go_0. repeat split. lia.
  - rewrite (pretty_N_go_step x s Hpos).
    destruct (IH (x `div` 10)%N (N.div_lt x 10 Hpos eq_refl)
                (String (pretty_N_char (x `mod` 10)) s)) as (d & Hd & Hdash & _).
    exists (d +:+ String (pretty_N_char (x `mod` 10)) EmptyString).
    rewrite Hd, append_assoc. split; [reflexivity |]. split.
    + rewrite dashless_append, Hdash. cbn [dashless andb].
      now rewrite pretty_N_char_dashless.
    + intros _. destruct d; discriminate.
Qed.

(** "%d" of an integer: digits, after a dash if it is negative. *)
Lemma pretty_Z_shape (a : Z) :
  exists d : string,
    dashless d = true /\ d <> EmptyString /\ (pretty a = d \/ pretty a = String "-" d).
Proof.
  assert (Hpos : forall p : positive,
             exists d : string, dashless d = true /\ d <> EmptyString /\ pretty p = d).
  { intros p. unfold pretty, pretty_positive, pretty, pretty_N.
    destruct (decide (N.pos p = 0%N)) as [Hz | _]; [discriminate Hz |].
    destruct (pretty_N_go_digits (N.pos p) EmptyString) as (d & Hd & Hdash & Hne).
    exists d. split; [exact Hdash |]. split; [now apply Hne |].
    rewrite Hd. clear. induction d as [| c s IH]; [reflexivity |].
    rewrite append_cons. now rewrite IH. }
  destruct a as [| p | p].
  - exists "0". split; [reflexivity |]. split; [discriminate | now left].
  - destruct (Hpos p) as (d & Hdash & Hne & Hd). exists d. repeat split; auto.
  - destruct (Hpos p) as (d & Hdash & Hne & Hd). exists d.
    split; [exact Hdash |]. split; [exact Hne |]. right.
    unfold pretty at 1, pretty_Z. now rewrite Hd.
Qed.

Lemma split_at_dash (d1 d2 r1 r2 : string) :
  dashless d1 = true -> dashless d2 = true ->
  d1 +:+ String "-" r1 = d2 +:+ String "-" r2 -> d1 = d2 /\ r1 = r2.
Proof.
  revert d2. induction d1 as [| a d1 IH]; intros [| b d2] H1 H2 Heq.
  - injection Heq as ->. now split.
  - rewrite append_cons in Heq. injection Heq as <- _. discriminate H2.
  - rewrite append_cons in Heq. injection Heq as -> _. discriminate H1.
  - rewrite !append_cons in Heq. injection Heq as -> Heq.
    cbn [dashless] in H1, H2.
    apply andb_true_iff in H1 as [_ H1]. apply andb_true_iff in H2 as [_ H2].
    destruct (IH d2 H1 H2 Heq) as [-> ->]. now split.
Qed.

(** X18. Two trades with the same paging token have the same operation id
    and the same order, negative numbers included: the token names the
    position of a trade without ambiguity. *)
Theorem PagingToken_injective (r1 r2 : Trade) :
  PagingToken r1 = PagingToken r2 ->
  HistoryOperationID r1 = HistoryOperationID r2 /\ Order r1 = Order r2.
Proof.
  unfold PagingToken.
  generalize (HistoryOperationID r1) (Order r1) (HistoryOperationID r2) (Order r2).
  intros a1 b1 a2 b2 Heq.
  change (pretty a1 +:+ String "-" (pretty b1) = pretty a2 +:+ String "-" (pretty b2)) in Heq.
  assert (Hsplit : pretty a1 = pretty a2 /\ pretty b1 = pretty b2).
  { destruct (pretty_Z_shape a1) as (d1 & D1 & N1 & [E1 | E1]),
             (pretty_Z_shape a2) as (d2 & D2 & N2 & [E2 | E2]);
      rewrite E1, E2 in Heq |- *.
    - exact (split_at_dash _ _ _ _ D1 D2 Heq).
    - destruct d1 as [| c d1]; [now destruct N1 |].
      rewrite !append_cons in Heq. injection Heq as -> _. discriminate D1.
    - destruct d2 as [| c d2]; [now destruct N2 |].
      rewrite !append_cons in Heq. injection Heq as <- _. discriminate D2.
    - rewrite !append_cons in Heq. injection Heq as Heq.
      destruct (split_at_dash _ _ _ _ D1 D2 Heq) as [-> ->]. now split. }
  destruct Hsplit as [Ha Hb]. split; now apply (inj pretty).
Qed.

(** X19. Whether a trade has price data does not depend on its orientation:
    [HasPrice] gives the same on a row and on its reverse projection, and the
    same on what the plain and the reverse select list read from a stored
    row. *)
Theorem HasPrice_orientation (r : Trade) (j : JoinedRow) :
  HasPrice (reverseProjection r) = HasPrice r /\
  HasPrice (selectReverseTradeFields j) = HasPrice (selectTradeFields j).
Proof.
  unfold HasPrice. cbn. split; apply andb_comm.
Qed.

End Further.

(** ** The further properties on the sample backend *)

(** X against X: the ids are equal, the buyer is stored as base and the
    price 2/5 as 5/2. *)
Lemma InsertTrade_base_is_smaller_id_witness :
  exists row : sq.InsertBuilder,
    executed (snd (InsertTrade (H := Sample.backend) 100 0 "GBUYER" true Sample.buyOffer
                     Sample.self_trade Sample.price_2_5 1570000000000 Sample.scenarioA))
      = [Exec row] /\
    stored_bool row "base_is_seller" = Some false /\
    stored_int row "base_account_id" = Some 2 /\
    stored_int row "price_n" = Some 5 /\
    stored_int row "price_d" = Some 2.
Proof.
  destruct (InsertTrade_base_is_smaller_id (H := Sample.backend) 100 0 "GBUYER" true
              Sample.buyOffer Sample.self_trade Sample.price_2_5 1570000000000
              Sample.scenarioA Sample.scenarioA Sample.scenarioA Sample.scenarioA
              Sample.scenarioA 1 2 3 3 eq_refl eq_refl eq_refl eq_refl)
    as (row & Hlog & _ & _ & Hflag & Haccount & Hn & Hd).
  exists row. repeat split; assumption.
Defined.

(** Scenario B read back: stored with Y as base, the trade is returned for
    the pair (X, Y) = (9, 4) as the seller made it. *)
Lemma InsertTrade_read_back_witness :
  exists (row : sq.InsertBuilder) (j : JoinedRow),
    executed (snd (InsertTrade (H := Sample.backend) 100 0 "GBUYER" true Sample.buyOffer
                     Sample.claim Sample.price_2_5 1570000000000 Sample.scenarioB))
      = [Exec row] /\
    joinedRow Sample.address_of Sample.asset_of row = Some j /\
    sq.matches (sql (TradesForAssetPair 9 4)) j = true /\
    BaseAccount (sq.sel_columns (sql (TradesForAssetPair 9 4)) j) = "GSELLER" /\
    BaseAssetCode (sq.sel_columns (sql (TradesForAssetPair 9 4)) j) = "X" /\
    BaseAmount (sq.sel_columns (sql (TradesForAssetPair 9 4)) j) = 50 /\
    CounterAmount (sq.sel_columns (sql (TradesForAssetPair 9 4)) j) = 20 /\
    PriceN (sq.sel_columns (sql (TradesForAssetPair 9 4)) j)
      = {| null.Int64 := 2; null.Valid := true |} /\
    BaseIsSeller (sq.sel_columns (sql (TradesForAssetPair 9 4)) j) = true.
Proof.
  destruct (InsertTrade_read_back (H := Sample.backend) Sample.address_of Sample.asset_of
              100 0 "GBUYER" true Sample.buyOffer Sample.claim Sample.price_2_5 1570000000000
              Sample.scenarioB Sample.scenarioB Sample.scenarioB Sample.scenarioB
              Sample.scenarioB 1 2 9 4 eq_refl eq_refl eq_refl eq_refl ltac:(discriminate))
    as (row & j & Hlog & Hj & Hmatch & Hsel & _ & _).
  exists row, j. rewrite Hsel. split; [exact Hlog |]. split; [exact Hj |].
  split; [exact Hmatch | repeat split].
Defined.

(** The row stored with base asset 4 and counter asset 9 is found for (9, 4)
    and for (4, 9); asked for (9, 4) it comes back with the seller as base. *)
Lemma TradesForAssetPair_orientation_witness :
  sq.matches (sql (TradesForAssetPair 9 4)) (Sample.mirror 100 0 Sample.noon) = true /\
  sq.matches (sql (TradesForAssetPair 4 9)) (Sample.mirror 100 0 Sample.noon) = true /\
  BaseIsSeller (sq.sel_columns (sql (TradesForAssetPair 9 4)) (Sample.mirror 100 0 Sample.noon))
    = true.
Proof.
  destruct (TradesForAssetPair_orientation 9 4 (Sample.mirror 100 0 Sample.noon)
              ltac:(discriminate)) as (Hsame & Hmatch & _ & Hflag).
  split; [rewrite Hmatch; reflexivity |].
  split; [rewrite <- Hsame, Hmatch; reflexivity |].
  rewrite Hflag. reflexivity.
Defined.

(** An unknown account: the error of the lookup comes back from [Select]. *)
Lemma ForAccount_lookup_failure_witness :
  Select (H := Sample.backend)
    (Page (H := Sample.backend)
       (ForAccount (H := Sample.backend) Trades "GNOBODY" Sample.scenarioA)
       Sample.page_after_100_1)
    [] Sample.scenarioA
  = (Some (Failure "sql: no rows in result set"),
     ForAccount (H := Sample.backend) Trades "GNOBODY" Sample.scenarioA,
     [], Sample.scenarioA).
Proof.
  destruct (ForAccount_lookup_failure (H := Sample.backend) Trades "GNOBODY" Sample.scenarioA
              (Failure "sql: no rows in result set") eq_refl) as [_ Hselect].
  exact (Hselect Sample.page_after_100_1 [] Sample.scenarioA).
Defined.

(** After the cursor "abc" was refused, filtering by a known account clears
    the error and the query runs. *)
Lemma ForAccount_clears_earlier_error_witness :
  Err (Page (H := Sample.backend) Trades Sample.malformed_page)
    = Some (Failure "invalid cursor") /\
  Err (ForAccount (H := Sample.backend)
         (Page (H := Sample.backend) Trades Sample.malformed_page) "GSELLER" Sample.scenarioA)
    = None /\
  executed (snd (Select (H := Sample.backend)
                   (ForAccount (H := Sample.backend)
                      (Page (H := Sample.backend) Trades Sample.malformed_page)
                      "GSELLER" Sample.scenarioA)
                   [] Sample.scenarioA))
  = [Query (sql (ForAccount (H := Sample.backend)
                   (Page (H := Sample.backend) Trades Sample.malformed_page)
                   "GSELLER" Sample.scenarioA))].
Proof.
  destruct (ForAccount_clears_earlier_error (H := Sample.backend)
              (Page (H := Sample.backend) Trades Sample.malformed_page)
              "GSELLER" Sample.scenarioA 1 [] eq_refl) as (Herr & _ & Hlog).
  split; [reflexivity |]. split; [exact Herr | exact Hlog].
Defined.

(** With the database offline, the first [Select] fails and the builder it
    leaves fails again without a statement. *)
Lemma Select_error_is_kept_witness :
  fst (fst (fst (Select (H := Sample.offline) Trades []
                   (@Build_Q Sample.offline (Sample.tables [] []) []))))
    = Some (Failure "connection refused") /\
  Select (H := Sample.offline)
    {| Err := Some (Failure "connection refused"); sql := sql Trades |}
    [selectTradeFields Sample.trade_1]
    (@Build_Q Sample.offline (Sample.tables [] []) [])
  = (Some (Failure "connection refused"),
     {| Err := Some (Failure "connection refused"); sql := sql Trades |},
     [selectTradeFields Sample.trade_1],
     @Build_Q Sample.offline (Sample.tables [] []) []).
Proof.
  destruct (Select_error_is_kept (H := Sample.offline) Trades []
              (@Build_Q Sample.offline (Sample.tables [] []) [])
              (Failure "connection refused") eq_refl eq_refl) as [Hfirst Hlater].
  split; [rewrite Hfirst; reflexivity |].
  exact (Hlater [selectTradeFields Sample.trade_1]
           (@Build_Q Sample.offline (Sample.tables [] []) [])).
Defined.

(** An unknown buyer on a backend that creates no account: the lookup's
    error comes back under the buyer's message and nothing is executed. *)
Lemma InsertTrade_outcomes_witness :
  InsertTrade (H := Sample.strict) 100 0 "GNOBODY" true Sample.buyOffer
    Sample.claim Sample.price_2_5 1570000000000
    (@Build_Q Sample.strict (Sample.tables [] []) [])
  = (Some (Wrap (Failure "sql: no rows in result set") "failed to load buyer account id"),
     @Build_Q Sample.strict (Sample.tables [] []) []).
Proof.
  destruct (InsertTrade_outcomes (H := Sample.strict) 100 0 "GNOBODY" true Sample.buyOffer
              Sample.claim Sample.price_2_5 1570000000000
              (@Build_Q Sample.strict (Sample.tables [] []) []))
    as (_ & Hbuyer & _).
  exact (Hbuyer 1 (Failure "sql: no rows in result set")
           (@Build_Q Sample.strict (Sample.tables [] []) [])
           (@Build_Q Sample.strict (Sample.tables [] []) [])
           eq_refl eq_refl).
Defined.


(** With the database offline, only the first SELECT is executed. *)
Lemma CheckExpTrades_first_fetch_fails_witness :
  fst (CheckExpTrades (H := Sample.offline) 1
         (@Build_Q Sample.offline (Sample.tables [] []) []))
    = Some (false, Some (Failure "connection refused")) /\
  length (executed (snd (CheckExpTrades (H := Sample.offline) 1
                           (@Build_Q Sample.offline (Sample.tables [] []) [])))) = 1%nat.
Proof.
  destruct (CheckExpTrades_first_fetch_fails (H := Sample.offline) 1
              (@Build_Q Sample.offline (Sample.tables [] []) [])
              (Failure "connection refused") eq_refl) as [Hresult Hlog].
  split; [exact Hresult |]. rewrite Hlog. reflexivity.
Defined.

(** The primary table is empty and the experimental table cannot be read:
    the result is the error, not (true, nil). *)
Lemma CheckExpTrades_second_fetch_fails_witness :
  fst (CheckExpTrades (H := Sample.exp_offline) 1
         (@Build_Q Sample.exp_offline (Sample.tables [] []) []))
    = Some (false, Some (Failure "connection refused")).
Proof.
  exact (proj1 (CheckExpTrades_second_fetch_fails (H := Sample.exp_offline) 1
                  (@Build_Q Sample.exp_offline (Sample.tables [] []) [])
                  [] (Failure "connection refused") eq_refl eq_refl)).
Defined.

(** Scenario D again: the verdict is true because the rows are mirrored. *)
Lemma CheckExpTrades_true_iff_witness :
  fst (CheckExpTrades (H := Sample.backend) 1 Sample.mirrored_tables) = Some (true, None)
  <-> Forall2 consistent_rows
        [selectTradeFields Sample.trade_1]
        [selectTradeFields (Sample.mirror 4294971392 0 Sample.noon_local)].
Proof.
  exact (proj1 (CheckExpTrades_true_iff (H := Sample.backend) 1 Sample.mirrored_tables
                  [selectTradeFields Sample.trade_1]
                  [selectTradeFields (Sample.mirror 4294971392 0 Sample.noon_local)]
                  eq_refl eq_refl ltac:(discriminate) eq_refl)).
Defined.

(** The two tables of scenario D exchanged give the same verdict. *)
Lemma CheckExpTrades_symmetric_witness :
  fst (CheckExpTrades (H := Sample.backend) 1 Sample.mirrored_tables)
  = fst (CheckExpTrades (H := Sample.backend) 1 Sample.mirrored_tables_swapped).
Proof.
  exact (CheckExpTrades_symmetric (H := Sample.backend) 1 Sample.mirrored_tables
           Sample.mirrored_tables_swapped
           [selectTradeFields Sample.trade_1]
           [selectTradeFields (Sample.mirror 4294971392 0 Sample.noon_local)]
           eq_refl eq_refl eq_refl eq_refl).
Defined.

(** Two equal tables of two rows. *)
Lemma CheckExpTrades_same_rows_witness :
  fst (CheckExpTrades (H := Sample.backend) 1 Sample.equal_tables) = Some (true, None).
Proof.
  exact (CheckExpTrades_same_rows (H := Sample.backend) 1 Sample.equal_tables
           [selectTradeFields Sample.trade_1; selectTradeFields Sample.trade_2]
           eq_refl eq_refl).
Defined.

(** A row and its mirror image have the token "4294971392-0" and the same
    position. *)
Lemma PagingToken_injective_witness :
  PagingToken (selectTradeFields Sample.trade_1) = "4294971392-0" /\
  HistoryOperationID (selectTradeFields Sample.trade_1)
    = HistoryOperationID (selectTradeFields (Sample.mirror 4294971392 0 Sample.noon_local)) /\
  Order (selectTradeFields Sample.trade_1)
    = Order (selectTradeFields (Sample.mirror 4294971392 0 Sample.noon_local)).
Proof.
  split; [vm_compute; reflexivity |].
  apply (PagingToken_injective (selectTradeFields Sample.trade_1)
           (selectTradeFields (Sample.mirror 4294971392 0 Sample.noon_local))).
  vm_compute. reflexivity.
Defined.
